(** * pr: switching between tmux sessions bound to project directories

    A shallow embedding of [main.go]: the favourites history
    ([FavouritesConfig], [Touch], [Save]), the listing of live sessions
    ([listSessions]), its table on the screen ([printSessions]), and the
    resolution and materialisation of a session ([ChangeSession]),
    followed by the properties of the specification that were checked
    against them.

    Go strings are byte strings and are modelled by [string]; a slice or a
    map that may be [nil] is an [option]; a map is a [gmap].  Everything the
    program asks of its surroundings (file system, environment, tmux,
    library routines) is read from a [World]; everything it does to them is
    recorded, in order, as a list of [event]s. *)

From Stdlib Require Import ZArith String Ascii List DecimalString DecimalPos.
From stdpp Require Import base option list sorting strings gmap.

Local Open Scope string_scope.
Local Open Scope Z_scope.

(** ** Strings *)

(** [strings.HasPrefix(s, prefix)]: [s] is at least as long as [prefix]
    and starts with its bytes. *)
Fixpoint HasPrefix (s prefix : string) {struct prefix} : bool :=
  match prefix, s with
  | EmptyString, _ => true
  | String _ _, EmptyString => false
  | String c prefix', String d s' => Ascii.eqb c d && HasPrefix s' prefix'
  end.

(** [a == b] on strings. *)
Definition streq (a b : string) : bool := bool_decide (a = b).

(** [strings.Split(s, sep)] for a one-byte separator: the fields between
    the separators, [n+1] fields for [n] separators. *)
Fixpoint Split (s : string) (sep : ascii) : list string :=
  match s with
  | EmptyString => [EmptyString]
  | String c s' =>
      if Ascii.eqb c sep then EmptyString :: Split s' sep
      else match Split s' sep with
           | [] => [String c EmptyString]
           | f :: fs => String c f :: fs
           end
  end.

(** ** Data model (main.go, lines 108-153) *)

(** [FavouriteSession]: a session remembered in the history.  [Aliases] and
    [Env] are [None] for a nil slice or map.  Both structs of the source
    have fields [Name] and [Path]; the fields carry the prefixes [fs_] and
    [ts_] to tell them apart. *)
Record FavouriteSession := mkFavouriteSession {
  fs_Name : string;
  fs_Path : string;
  fs_Cmd : string;
  fs_Aliases : option (list string);
  fs_Env : option (gmap string string)
}.

(** [TmuxSession]: a session of the live tmux.  [ts_LastActivity] is the
    instant of a [time.Time] without monotonic reading and with no
    nanoseconds: the seconds since January 1, year 1, as a 64-bit integer;
    the zero [time.Time] is [0]. *)
Record TmuxSession := mkTmuxSession {
  ts_Name : string;
  ts_Attached : bool;
  ts_LastActivity : Z;
  ts_WindowsCount : Z;
  ts_Path : string
}.

(** [FavouritesConfig]: the ordered history and its dirty flag. *)
Record FavouritesConfig := mkFavouritesConfig {
  Sessions : list FavouriteSession;
  changed : bool
}.

#[global] Instance FavouriteSession_eq_dec : EqDecision FavouriteSession.
Proof. solve_decision. Defined.
#[global] Instance TmuxSession_eq_dec : EqDecision TmuxSession.
Proof. solve_decision. Defined.

(** Iterating over a slice that may be nil. *)
Definition range {A} (s : option (list A)) : list A := default [] s.

(** ** 64-bit integers and time *)

Definition wrap64 (z : Z) : Z := (z + 2 ^ 63) mod 2 ^ 64 - 2 ^ 63.

Definition digit_of (c : ascii) : option Z :=
  let n := Z.of_N (N_of_ascii c) in
  if (48 <=? n) && (n <=? 57) then Some (n - 48) else None.

Fixpoint parse_digits (s : string) (acc : Z) : option Z :=
  match s with
  | EmptyString => Some acc
  | String c s' =>
      match digit_of c with
      | Some d => parse_digits s' (acc * 10 + d)
      | None => None
      end
  end.

(** [strconv.ParseInt(s, 10, 64)]: an optional sign and at least one
    decimal digit, within the 64-bit range; [None] for an error.
    [strconv.Atoi] is the same function where [int] has 64 bits. *)
Definition ParseInt (s : string) : option Z :=
  match s with
  | EmptyString => None
  | String c s' =>
      let '(neg, body) :=
        if Ascii.eqb c "+" then (false, s')
        else if Ascii.eqb c "-" then (true, s')
        else (false, s) in
      match body with
      | EmptyString => None
      | _ =>
          match parse_digits body 0 with
          | Some un =>
              let v := if neg then - un else un in
              if (- 2 ^ 63 <=? v) && (v <? 2 ^ 63) then Some v else None
          | None => None
          end
      end
  end.

Definition Atoi (s : string) : option Z := ParseInt s.

(** [unixToInternal]: seconds from year 1 to 1970. *)
Definition unixToInternal : Z := (1969 * 365 + 1969 / 4 - 1969 / 100 + 1969 / 400) * 86400.

(** [time.Unix(sec, 0)], as the instant it denotes. *)
Definition time_Unix (sec : Z) : Z := wrap64 (sec + unixToInternal).

(** [t.After(u)]. *)
Definition After (t u : Z) : bool := u <? t.

(** ** Favourites store (main.go, lines 155-212) *)

(** The index of the first record called [name], as the loop of [Touch]
    finds it: [found_i], with [None] for [-1]. *)
Fixpoint find_index (name : string) (l : list FavouriteSession) : option nat :=
  match l with
  | [] => None
  | fs1 :: l' =>
      if streq (fs_Name fs1) name then Some 0%nat
      else S <$> find_index name l'
  end.

(** [fc.Touch(name, path)] as a function of the store. *)
Definition Touch (name path : string) (fc : FavouritesConfig) : FavouritesConfig :=
  if HasPrefix path "/tmp/" then fc
  else
    let fs := {| fs_Name := name; fs_Path := path; fs_Cmd := "";
                 fs_Aliases := Some []; fs_Env := Some ∅ |} in
    match find_index name (Sessions fc) with
    | Some 0%nat => fc
    | Some found_i =>
        let fs := default fs (Sessions fc !! found_i) in
        {| Sessions := fs :: take found_i (Sessions fc)
                          ++ drop (S found_i) (Sessions fc);
           changed := true |}
    | None =>
        {| Sessions := fs :: Sessions fc; changed := true |}
    end.

(** ** Outcomes, events and the world *)

(** How a call ends: it returns, or the process ends in [log.Fatalf]
    (message, exit status 1), in a panic ([log.Panicf], through
    [dieIfError], or a run-time error), or is replaced by another program
    ([syscall.Exec]). *)
Inductive outcome (A : Type) : Type :=
| Returned (a : A)
| Fatal (msg : string)
| Panicked (msg : string)
| Replaced.
Arguments Returned {A} a.
Arguments Fatal {A} msg.
Arguments Panicked {A} msg.
Arguments Replaced {A}.

(** A row of the table of [printSessions]: the session whose name, path,
    number of windows, activity ([FmtLastActivity]) and attached mark
    ([FmtAttached]) it shows, and the text of the todo column when the table
    has one. *)
Record table_row := mkRow {
  row_session : TmuxSession;
  row_todo : option string
}.

(** What the process does to its surroundings.  [EvPrintTable] is
    [tbl.Print()] on a table with the header [cols] and the rows [rows];
    the layout is the table library's. *)
Inductive event : Type :=
| EvLog (msg : string)
| EvTmuxListSessions
| EvTmuxNew (name path startCmd : string) (env : option (gmap string string))
| EvTmuxSwitchClient (name : string)
| EvExec (path : string) (argv : list string)
| EvMkdir (path : string) (perm : Z)
| EvWriteFile (path data : string) (perm : Z)
| EvPrintTable (cols : list string) (rows : list table_row).

(** [os.FileInfo], as far as it is used. *)
Record FileInfo := mkFileInfo { IsDir : bool; IsRegular : bool }.

(** The surroundings of one run.  A Go result [(v, err)] is a pair whose
    second component is [None] for a nil error and the error's text
    otherwise. *)
Record World := mkWorld {
  Home : string;
  ConfigPath : string;
  os_Getwd : string * option string;
  os_Stat : string → option FileInfo;
  os_Mkdir : string → Z → option string;
  os_ReadDir : string → list string * option string;
  os_ReadFile : string → string * option string;
  os_WriteFile : string → string → Z → option string;
  os_Getenv : string → string;
  exec_LookPath : string → string * option string;
  (** [None]: the process image was replaced. *)
  syscall_Exec : string → list string → option string;
  (** [tmux list-sessions -F ...]: combined output and error. *)
  tmux_list_sessions : string * option string;
  (** [tmux new -c path -s name -d -e k=v ... startCmd]: error. *)
  tmux_new : string → string → string → option (gmap string string) → option string;
  (** [tmux switch-client -t name]: combined output and error. *)
  tmux_switch_client : string → string * option string;
  filepath_Base : string → string;
  filepath_Dir : string → string;
  filepath_Join : string → string → string;
  (** [sort.Slice] on a copy of the slice, with [less] on elements. *)
  sort_Slice : (TmuxSession → TmuxSession → bool) → list TmuxSession → list TmuxSession;
  (** [json.MarshalIndent(fc, "", "    ")]: only the exported field
      [Sessions] is encoded. *)
  json_MarshalIndent : list FavouriteSession → string * option string
}.

(** The state a run threads: the global [Config] and the events so far,
    oldest first. *)
Record state := mkState {
  Config : FavouritesConfig;
  events : list event
}.

Definition M (A : Type) : Type := state → outcome A * state.

#[global] Instance M_ret : MRet M := λ A a st, (Returned a, st).
#[global] Instance M_bind : MBind M := λ A B f m st,
  match m st with
  | (Returned a, st') => f a st'
  | (Fatal msg, st') => (Fatal msg, st')
  | (Panicked msg, st') => (Panicked msg, st')
  | (Replaced, st') => (Replaced, st')
  end.

Definition emit (e : event) : M unit :=
  λ st, (Returned tt, {| Config := Config st; events := events st ++ [e] |}).

Definition modify_Config (f : FavouritesConfig → FavouritesConfig) : M unit :=
  λ st, (Returned tt, {| Config := f (Config st); events := events st |}).

Definition get_Config : M FavouritesConfig := λ st, (Returned (Config st), st).

(** [log.Printf], [log.Fatalf], [log.Panicf]; a run-time panic; the end of
    the process in a successful [syscall.Exec]. *)
Definition log_Printf (msg : string) : M unit := emit (EvLog msg).
Definition log_Fatalf {A} (msg : string) : M A := λ st, (Fatal msg, st).
Definition log_Panicf {A} (msg : string) : M A := λ st, (Panicked msg, st).
Definition runtime_panic {A} (msg : string) : M A := λ st, (Panicked msg, st).
Definition process_replaced {A} : M A := λ st, (Replaced, st).

(** [dieIfError] (lines 102-106). *)
Definition dieIfError (err : option string) : M unit :=
  match err with
  | Some e => log_Panicf ("Got error: " ++ e)
  | None => mret tt
  end.

(** File modes are written in octal in the source. *)
Definition octal (a b c : Z) : Z := a * 64 + b * 8 + c.
Definition os_ModePerm : Z := octal 7 7 7.

Section Program.

Variable W : World.

(** [fc.Save()] (lines 165-173), on the global [Config]. *)
Definition Save : M unit :=
  fc ← get_Config;
  if negb (changed fc) then mret tt
  else
    let '(bs, err) := json_MarshalIndent W (Sessions fc) in
    dieIfError err;;
    emit (EvWriteFile (ConfigPath W) bs (octal 6 4 0));;
    dieIfError (os_WriteFile W (ConfigPath W) bs (octal 6 4 0)).

(** [listSessions] (lines 223-255).  A line of the output that has five
    tab-separated fields is a session. *)
Definition parse_line (line : string) : option TmuxSession :=
  match Split line "009"%char with
  | [p0; p1; p2; p3; p4] =>
      Some {| ts_Name := p0;
              ts_Path := p1;
              ts_Attached := negb (streq p2 "0");
              ts_WindowsCount := default 0 (Atoi p3);
              ts_LastActivity := default 0 (time_Unix <$> ParseInt p4) |}
  | _ => None
  end.

Definition listSessions : M (list TmuxSession) :=
  emit EvTmuxListSessions;;
  let '(out, err) := tmux_list_sessions W in
  match err with
  | Some e =>
      log_Printf ("tmux list-sessions: " ++ e ++ ": " ++ out);;
      mret []
  | None => mret (omap parse_line (Split out "010"%char))
  end.

(** [createSession] (lines 258-269). *)
Definition createSession (name path startCmd : string)
    (env : option (gmap string string)) : M unit :=
  emit (EvTmuxNew name path startCmd env);;
  dieIfError (tmux_new W name path startCmd env).

(** [switchToSession] (lines 272-286). *)
Definition switchToSession (name : string) : M unit :=
  if negb (streq (os_Getenv W "TMUX") "") then
    emit (EvTmuxSwitchClient name);;
    let '(out, err) := tmux_switch_client W name in
    match err with
    | Some _ => log_Printf ("failed: " ++ out);; dieIfError err
    | None => mret tt
    end
  else
    let '(tmuxPath, err) := exec_LookPath W "tmux" in
    dieIfError err;;
    emit (EvExec tmuxPath ["tmux"; "attach"; "-t"; name]);;
    match syscall_Exec W tmuxPath ["tmux"; "attach"; "-t"; name] with
    | Some e => dieIfError (Some e)
    | None => process_replaced
    end.

(** [isDir] (lines 314-319). *)
Definition isDir (path : string) : bool :=
  match os_Stat W path with
  | Some s => IsDir s
  | None => false
  end.

(** [isFile] (lines 322-327). *)
Definition isFile (path : string) : bool :=
  match os_Stat W path with
  | Some s => IsRegular s
  | None => false
  end.

(** [getTodoFilename] (lines 298-300) and [getTodoContents] (lines
    303-311). *)
Definition getTodoFilename (dir : string) : string :=
  filepath_Join W dir ".todo".

Definition getTodoContents (dir : string) : M string :=
  let fname := getTodoFilename dir in
  if isFile fname then
    let '(bs, err) := os_ReadFile W fname in
    dieIfError err;;
    mret bs
  else mret "".

(** [f.TmuxSession()] (lines 215-220): the other fields are zero. *)
Definition FavouriteSession_TmuxSession (f : FavouriteSession) : TmuxSession :=
  {| ts_Name := fs_Name f; ts_Attached := false; ts_LastActivity := 0;
     ts_WindowsCount := 0; ts_Path := fs_Path f |}.

(** [printSessions] (lines 556-569): the rows [allSessions] that are handed
    to the table.  [sessionNames] is a map to [bool]; a missing key reads as
    [false]. *)
Definition printSessions_allSessions (sessions : list TmuxSession)
    (favs : list FavouriteSession) (fShowAllSessions : bool) : list TmuxSession :=
  let allSessions := sessions in
  let sessionNames : gmap string bool :=
    foldl (λ m s, <[ts_Name s := true]> m) ∅ allSessions in
  if fShowAllSessions then
    foldl (λ all fs,
             if negb (default false (sessionNames !! fs_Name fs))
             then (all ++ [FavouriteSession_TmuxSession fs])%list else all)
          allSessions favs
  else allSessions.

(** [printSessions] (lines 576-583): the rows of the table, one for each
    session, with the contents of its todo file when all columns are
    shown. *)
Fixpoint table_rows (allColumns : bool) (allSessions : list TmuxSession)
    : M (list table_row) :=
  match allSessions with
  | [] => mret []
  | s :: allSessions' =>
      todo ← (if allColumns
              then todo ← getTodoContents (ts_Path s); mret (Some todo)
              else mret None);
      rows ← table_rows allColumns allSessions';
      mret ({| row_session := s; row_todo := todo |} :: rows)
  end.

(** [printSessions] (lines 550-585); [fShowAllSessions] is the flag [-a],
    which the source reads from the global. *)
Definition printSessions (sessions : list TmuxSession)
    (allColumns fShowAllSessions : bool) : M unit :=
  let cols := ["name"; "path"; "windows"; "activity"; "attchd"] in
  let cols := if allColumns then (cols ++ ["todo"])%list else cols in
  fc ← get_Config;
  let allSessions :=
    printSessions_allSessions sessions (Sessions fc) fShowAllSessions in
  rows ← table_rows allColumns allSessions;
  emit (EvPrintTable cols rows).

End Program.

(** [countRepeatedChars] (lines 340-347).  The source ranges over the runes
    of [s]; for a one-byte [char] every rune equals [char] exactly when
    every byte does, and [len(s)] counts bytes. *)
Fixpoint only_char (s : string) (char : ascii) : bool :=
  match s with
  | EmptyString => true
  | String ch s' => if Ascii.eqb ch char then only_char s' char else false
  end.

Definition countRepeatedChars (s : string) (char : ascii) : Z :=
  if only_char s char then Z.of_nat (String.length s) else 0.

Definition SUFFIXES : list string :=
  [""; "1"; "2"; "3"; "4"; "5"; "6"; "7"; "8"; "9"].

(** ** ChangeSession (main.go, lines 370-524) *)

(** The four variables that resolution fills and materialisation reads. *)
Record target := mkTarget {
  sessionName : string;
  sessionDirPath : string;
  sessionStartCmd : string;
  sessionEnv : option (gmap string string)
}.

Definition no_target : target :=
  {| sessionName := ""; sessionDirPath := ""; sessionStartCmd := "";
     sessionEnv := None |}.

(** [sessionName = s.Name; sessionDirPath = s.Path]. *)
Definition set_session (s : TmuxSession) (t : target) : target :=
  {| sessionName := ts_Name s; sessionDirPath := ts_Path s;
     sessionStartCmd := sessionStartCmd t; sessionEnv := sessionEnv t |}.

(** The four assignments from a favourite. *)
Definition set_favourite (fs : FavouriteSession) : target :=
  {| sessionName := fs_Name fs; sessionDirPath := fs_Path fs;
     sessionStartCmd := fs_Cmd fs; sessionEnv := fs_Env fs |}.

(** Lines 371-374: later sessions overwrite earlier ones of the same name. *)
Definition sessionsByName (sessions : list TmuxSession) : gmap string TmuxSession :=
  foldl (λ m s, <[ts_Name s := s]> m) ∅ sessions.

(** [LastActivity.After] as the [less] of [sort.Slice] (lines 413-415). *)
Definition less_activity (a b : TmuxSession) : bool :=
  After (ts_LastActivity a) (ts_LastActivity b).

(** Lines 421-424: exact match on a live session. *)
Definition live_exact (sessions : list TmuxSession) (sessionId : string)
    (t : target) : target :=
  match sessionsByName sessions !! sessionId with
  | Some s => set_session s t
  | None => t
  end.

(** Lines 425-433: prefix match on the live sessions, no [break]. *)
Definition live_prefix (sessions : list TmuxSession) (sessionId : string)
    (t : target) : target :=
  if streq (sessionName t) "" then
    foldl (λ t s, if HasPrefix (ts_Name s) sessionId then set_session s t else t)
          t sessions
  else t.

(** Lines 437-457: the favourites, by name or by alias. *)
Fixpoint favourite_exact_loop (sessionId : string) (l : list FavouriteSession)
    (t : target) : target :=
  match l with
  | [] => t
  | fs :: l' =>
      if streq (fs_Name fs) sessionId then set_favourite fs
      else
        let t' :=
          if existsb (λ a, streq a sessionId) (range (fs_Aliases fs))
          then set_favourite fs else t in
        if negb (streq (sessionName t') "") then t'
        else favourite_exact_loop sessionId l' t'
  end.

Definition favourite_exact (favs : list FavouriteSession) (sessionId : string)
    (t : target) : target :=
  if streq (sessionName t) "" then favourite_exact_loop sessionId favs t else t.

(** Lines 459-470: the favourites, by prefix of the name; first match. *)
Fixpoint favourite_prefix_loop (sessionId : string) (l : list FavouriteSession)
    (t : target) : target :=
  match l with
  | [] => t
  | fs :: l' =>
      if HasPrefix (fs_Name fs) sessionId then set_favourite fs
      else favourite_prefix_loop sessionId l' t
  end.

Definition favourite_prefix (favs : list FavouriteSession) (sessionId : string)
    (t : target) : target :=
  if streq (sessionName t) "" then favourite_prefix_loop sessionId favs t else t.

Section ChangeSession.

Variable W : World.

(** Lines 386-402: an absolute path. *)
Definition resolve_absolute (sessionId : string) (allowCreateDir : bool) : M target :=
  dir ← (if negb (isDir W sessionId) then
           if isDir W (filepath_Dir W sessionId) then
             if allowCreateDir || HasPrefix sessionId "/tmp/" then
               emit (EvMkdir sessionId os_ModePerm);;
               dieIfError (os_Mkdir W sessionId os_ModePerm);;
               mret sessionId
             else
               log_Fatalf ("cannot switch to " ++ sessionId ++
                 " (directory does not exist): use -c flag to create a new directory")
           else
             log_Fatalf ("cannot switch to " ++ sessionId ++
               ": looks like a dir but does not exist and cannot be created")
         else mret sessionId);
  mret {| sessionName := filepath_Base W dir; sessionDirPath := dir;
          sessionStartCmd := ""; sessionEnv := None |}.

(** Lines 403-418: [n > 0] repetitions of ['-']. *)
Definition resolve_previous (sessions : list TmuxSession) (n : Z) : M target :=
  let len := Z.of_nat (length sessions) in
  if len <? 2 then
    log_Fatalf "cannot switch to a previous session (too few sessions)"
  else
    let n := if n >=? len then len - 1 else n in
    let sortedSessions := sort_Slice W less_activity sessions in
    match sortedSessions !! Z.to_nat n with
    | Some s => mret (set_session s no_target)
    | None => runtime_panic "index out of range"
    end.

(** Lines 475-482: a directory of the home directory, by its name. *)
Definition home_exact (sessionId : string) (t : target) : target :=
  if streq (sessionName t) "" then
    let p := filepath_Join W (Home W) sessionId in
    if isDir W p then
      {| sessionName := filepath_Base W p; sessionDirPath := p;
         sessionStartCmd := sessionStartCmd t; sessionEnv := sessionEnv t |}
    else t
  else t.

(** Lines 483-497: a directory of the home directory, by a prefix of its
    name; first match. *)
Fixpoint home_prefix_loop (sessionId : string) (entries : list string)
    (t : target) : target :=
  match entries with
  | [] => t
  | e :: entries' =>
      if HasPrefix e sessionId then
        let p := filepath_Join W (Home W) e in
        if isDir W p then
          {| sessionName := filepath_Base W p; sessionDirPath := p;
             sessionStartCmd := sessionStartCmd t; sessionEnv := sessionEnv t |}
        else home_prefix_loop sessionId entries' t
      else home_prefix_loop sessionId entries' t
  end.

Definition home_prefix (sessionId : string) (t : target) : M target :=
  if streq (sessionName t) "" then
    let '(entries, err) := os_ReadDir W (Home W) in
    dieIfError err;;
    mret (home_prefix_loop sessionId entries t)
  else mret t.

(** Lines 475-500: the home directory, and the failure when nothing
    matched. *)
Definition resolve_home (sessionId : string) (t : target) : M target :=
  t ← home_prefix sessionId (home_exact sessionId t);
  if streq (sessionName t) "" then
    log_Fatalf ("directory ~/" ++ sessionId ++ "* does not exist")
  else mret t.

(** Lines 376-500: from the token to the target. *)
Definition resolve (sessions : list TmuxSession) (sessionId : string)
    (allowCreateDir : bool) : M target :=
  sessionId ← (if streq sessionId "." then
                 let '(x, err) := os_Getwd W in
                 dieIfError err;; mret x
               else mret sessionId);
  t ← (if HasPrefix sessionId "/" then resolve_absolute sessionId allowCreateDir
       else
         let n := countRepeatedChars sessionId "-" in
         if 0 <? n then resolve_previous sessions n
         else
           fc ← get_Config;
           mret (favourite_prefix (Sessions fc) sessionId
                   (favourite_exact (Sessions fc) sessionId
                      (live_prefix sessions sessionId
                         (live_exact sessions sessionId no_target)))));
  resolve_home sessionId t.

(** Lines 502-523: the loop over [SUFFIXES], from index [i] on. *)
Fixpoint materialize_loop (byName : gmap string TmuxSession) (t : target)
    (suffixes : list string) : M unit :=
  match suffixes with
  | [] =>
      log_Fatalf ("cannot create session " ++ sessionName t ++
        " because names " ++ sessionName t ++ ", " ++
        (sessionName t ++ default "" (SUFFIXES !! 1%nat)) ++ ".." ++
        (sessionName t ++ default "" (last SUFFIXES)) ++ " are occupied")
  | suffix :: suffixes' =>
      let _name := sessionName t ++ suffix in
      match byName !! _name with
      | Some s =>
          if streq (ts_Path s) (sessionDirPath t) then
            modify_Config (Touch (ts_Name s) (ts_Path s));;
            switchToSession W (ts_Name s)
          else materialize_loop byName t suffixes'
      | None =>
          modify_Config (Touch (sessionName t) (sessionDirPath t));;
          createSession W (sessionName t) (sessionDirPath t)
            (sessionStartCmd t) (sessionEnv t);;
          switchToSession W (sessionName t)
      end
  end.

Definition materialize (sessions : list TmuxSession) (t : target) : M unit :=
  materialize_loop (sessionsByName sessions) t SUFFIXES.

Definition ChangeSession (sessions : list TmuxSession) (sessionId : string)
    (allowCreateDir : bool) : M unit :=
  t ← resolve sessions sessionId allowCreateDir;
  materialize sessions t.

(** [main] (lines 605-633) for a run without [-version], [-todo],
    [-edit], [-T] and [--interactive]; [sessionId] is the first argument
    of the command line, and empty when there is none. *)
Definition main (sessionId : string)
    (fAllowCreateDir fWide fShowAllSessions : bool) : M unit :=
  ss ← listSessions W;
  if negb (streq sessionId "") then
    ChangeSession ss sessionId fAllowCreateDir;;
    Save W
  else printSessions W ss fWide fShowAllSessions.

End ChangeSession.

(** ** What the library routines promise *)

(** The requirements on a [less] (sort.Interface): a strict weak order. *)
Record strict_weak_order {A} (less : A → A → bool) : Prop := {
  swo_irrefl : ∀ x, less x x = false;
  swo_trans : ∀ x y z, less x y = true → less y z = true → less x z = true;
  swo_incomparable : ∀ x y z, less x y = false → less y z = false → less x z = false
}.

(** The order a sort by [less] leaves: no element is less than one before. *)
Definition sorted_by {A} (less : A → A → bool) : list A → Prop :=
  StronglySorted (λ x y, less y x = false).

(** The documented contract of [sort.Slice]: the slice is rearranged, and
    is sorted as [less] says.  "The sort is not guaranteed to be stable:
    equal elements may be reversed from their original order." *)
Record sort_Slice_contract {A} (sort : (A → A → bool) → list A → list A) : Prop := {
  sort_Slice_perm : ∀ less l, sort less l ≡ₚ l;
  sort_Slice_sorted : ∀ less l, strict_weak_order less → sorted_by less (sort less l)
}.

(** Stability: the elements of every activity keep their listing order. *)
Definition keeps_listing_order (sort : (TmuxSession → TmuxSession → bool) →
    list TmuxSession → list TmuxSession) (sessions : list TmuxSession) : Prop :=
  ∀ a : Z,
    filter (λ s, ts_LastActivity s = a) (sort less_activity sessions)
    = filter (λ s, ts_LastActivity s = a) sessions.

(** Two sorts that meet the contract: insertion before the first element
    that is not less (ties keep their order), and insertion before the
    first element that is greater (ties are reversed). *)
Fixpoint insert_before_equal {A} (less : A → A → bool) (x : A) (l : list A) : list A :=
  match l with
  | [] => [x]
  | y :: l' => if less y x then y :: insert_before_equal less x l' else x :: l
  end.

Definition stable_sort {A} (less : A → A → bool) (l : list A) : list A :=
  foldr (insert_before_equal less) [] l.

Fixpoint insert_after_equal {A} (less : A → A → bool) (x : A) (l : list A) : list A :=
  match l with
  | [] => [x]
  | y :: l' => if less x y then x :: l else y :: insert_after_equal less x l'
  end.

Definition reversing_sort {A} (less : A → A → bool) (l : list A) : list A :=
  foldr (insert_after_equal less) [] l.

(** ** Tokens and sample surroundings *)

(** The token of [n] repetitions of ['-']. *)
Fixpoint dashes (n : nat) : string :=
  match n with
  | O => EmptyString
  | S n' => String "-" (dashes n')
  end.

(** File permission bits of a mode: nothing for the group and the others. *)
Definition owner_only (perm : Z) : bool := Z.land perm (octal 0 7 7) =? 0.

(** The last element of a slash-separated path and the path without it,
    for the sample world. *)
Definition last_element (path : string) : string :=
  default "/" (last (filter (λ f, f ≠ "") (Split path "/"%char))).

Definition parent_dir (path : string) : string :=
  match String.concat "/" (removelast (Split path "/"%char)) with
  | EmptyString => "/"
  | dir => dir
  end.

(** A world in which every system call succeeds, the process runs inside
    tmux, the directories are those of [dirs], and tmux answers
    [listing] to [list-sessions], [switch name] to [switch-client], and
    refuses to create a session whose name is in [live]. *)
Definition sample_world (dirs : list string) (live : list string)
    (listing : string * option string)
    (switch : string → string * option string)
    (sort : (TmuxSession → TmuxSession → bool) → list TmuxSession → list TmuxSession)
    : World :=
  {| Home := "/home/u";
     ConfigPath := "/home/u/.config/pr.json";
     os_Getwd := ("/home/u", None);
     os_Stat := λ p, if bool_decide (p ∈ dirs)
                     then Some {| IsDir := true; IsRegular := false |} else None;
     os_Mkdir := λ _ _, None;
     os_ReadDir := λ _, ([], None);
     os_ReadFile := λ p, ("", Some ("open " ++ p ++ ": no such file or directory"));
     os_WriteFile := λ _ _ _, None;
     os_Getenv := λ k, if streq k "TMUX" then "/tmp/tmux-1000/default,1,0" else "";
     exec_LookPath := λ _, ("/usr/bin/tmux", None);
     syscall_Exec := λ _ _, None;
     tmux_list_sessions := listing;
     tmux_new := λ name _ _ _,
       if bool_decide (name ∈ live) then Some "exit status 1" else None;
     tmux_switch_client := switch;
     filepath_Base := last_element;
     filepath_Dir := parent_dir;
     filepath_Join := λ a b, a ++ "/" ++ b;
     sort_Slice := sort;
     json_MarshalIndent := λ l, ("{}", None) |}.

(** A world like [W] with other answers of [os.Mkdir], [os.ReadDir] and
    [os.Getenv]. *)
Definition world_with (W : World)
    (mkdir : string → Z → option string)
    (readdir : string → list string * option string)
    (getenv : string → string) : World :=
  {| Home := Home W;
     ConfigPath := ConfigPath W;
     os_Getwd := os_Getwd W;
     os_Stat := os_Stat W;
     os_Mkdir := mkdir;
     os_ReadDir := readdir;
     os_ReadFile := os_ReadFile W;
     os_WriteFile := os_WriteFile W;
     os_Getenv := getenv;
     exec_LookPath := exec_LookPath W;
     syscall_Exec := syscall_Exec W;
     tmux_list_sessions := tmux_list_sessions W;
     tmux_new := tmux_new W;
     tmux_switch_client := tmux_switch_client W;
     filepath_Base := filepath_Base W;
     filepath_Dir := filepath_Dir W;
     filepath_Join := filepath_Join W;
     sort_Slice := sort_Slice W;
     json_MarshalIndent := json_MarshalIndent W |}.

(** ** Observations on a run *)

(** The run ended in [log.Fatalf] or in a panic. *)
Definition aborted {A} (o : outcome A) : bool :=
  match o with
  | Fatal _ | Panicked _ => true
  | Returned _ | Replaced => false
  end.

(** Every file the run wrote was written with a mode for the owner only. *)
Definition writes_owner_only (evs : list event) : bool :=
  forallb (λ e, match e with
                | EvWriteFile _ _ perm => owner_only perm
                | _ => true
                end) evs.

(** The session names the run asked tmux to create. *)
Definition created_names (evs : list event) : list string :=
  omap (λ e, match e with
             | EvTmuxNew name _ _ _ => Some name
             | _ => None
             end) evs.

(** The start of a run: the loaded history, nothing done yet. *)
Definition start (fc : FavouritesConfig) : state :=
  {| Config := fc; events := [] |}.

Definition empty_config : FavouritesConfig :=
  {| Sessions := []; changed := false |}.

(** A name collision: the live session [proj] is bound to one directory,
    the target [proj] to another. *)
Definition collision_live : list TmuxSession :=
  [{| ts_Name := "proj"; ts_Attached := false; ts_LastActivity := 0;
      ts_WindowsCount := 1; ts_Path := "/home/u/proj" |}].

Definition collision_target (cmd : string) (env : option (gmap string string)) : target :=
  {| sessionName := "proj"; sessionDirPath := "/work/proj";
     sessionStartCmd := cmd; sessionEnv := env |}.

(** A candidate name taken by a session of another directory. *)
Definition occupied (byName : gmap string TmuxSession) (t : target)
    (suffix : string) : Prop :=
  ∃ s, byName !! (sessionName t ++ suffix) = Some s
       ∧ ts_Path s ≠ sessionDirPath t.

(** Thirteen live sessions listed by name, the later the more recently
    active, except that [b] and [c] have the same activity. *)
Definition live (name : string) (activity : Z) : TmuxSession :=
  {| ts_Name := name; ts_Attached := false; ts_LastActivity := activity;
     ts_WindowsCount := 1; ts_Path := "/home/u/" ++ name |}.

Definition tied_listing : list TmuxSession :=
  [live "a" 1; live "b" 2; live "c" 2; live "d" 3; live "e" 4; live "f" 5;
   live "g" 6; live "h" 7; live "i" 8; live "j" 9; live "k" 10; live "l" 11;
   live "m" 12].

(** Worlds whose sort meets the contract of [sort.Slice]: one reverses
    ties, one keeps them. *)
Definition reversing_world : World :=
  sample_world [] [] ("", None) (λ _, ("", None)) reversing_sort.

Definition stable_world : World :=
  sample_world [] [] ("", None) (λ _, ("", None)) stable_sort.

(** A world without a tmux server, seen from a shell outside tmux:
    [list-sessions] fails and [TMUX] is not set. *)
Definition no_server_world : World :=
  world_with
    (sample_world ["/tmp"; "/tmp/x"] []
       ("no server running on /tmp/tmux-1000/default", Some "exit status 1")
       (λ _, ("", None)) stable_sort)
    (λ _ _, None) (λ _, ([], None)) (λ _, "").

(** A world whose tmux has the session [proj] and finds no other. *)
Definition one_session_world : World :=
  sample_world ["/work"; "/work/proj"] ["proj"] ("", None)
    (λ name, if streq name "proj" then ("", None)
             else ("can't find session: " ++ name, Some "exit status 1"))
    stable_sort.

(** Sample favourites. *)
Definition sample_project : FavouriteSession :=
  {| fs_Name := "project"; fs_Path := "/home/u/project"; fs_Cmd := "make watch";
     fs_Aliases := Some ["p"]; fs_Env := Some {["GOFLAGS" := "-mod=vendor"]} |}.

Definition sample_notes : FavouriteSession :=
  {| fs_Name := "notes"; fs_Path := "/home/u/notes"; fs_Cmd := "";
     fs_Aliases := None; fs_Env := None |}.

Definition sample_config : FavouritesConfig :=
  {| Sessions := [sample_notes; sample_project]; changed := false |}.

Definition dirty_config : FavouritesConfig :=
  {| Sessions := [sample_project; sample_notes]; changed := true |}.

(** Sample live sessions: A is the newest, then B, then C. *)
Definition session_A : TmuxSession :=
  {| ts_Name := "web-api"; ts_Attached := true; ts_LastActivity := 300;
     ts_WindowsCount := 2; ts_Path := "/home/u/web-api" |}.

Definition session_B : TmuxSession :=
  {| ts_Name := "web-ui"; ts_Attached := false; ts_LastActivity := 200;
     ts_WindowsCount := 1; ts_Path := "/home/u/web-ui" |}.

Definition session_C : TmuxSession :=
  {| ts_Name := "docs"; ts_Attached := false; ts_LastActivity := 100;
     ts_WindowsCount := 1; ts_Path := "/home/u/docs" |}.

(** The listing, not in order of activity. *)
Definition sample_listing : list TmuxSession := [session_C; session_A; session_B].

(** ** Further observations *)

(** How often the byte [c] occurs in [s]. *)
Fixpoint count_char (c : ascii) (s : string) : nat :=
  match s with
  | EmptyString => O
  | String d s' => if Ascii.eqb d c then S (count_char c s') else count_char c s'
  end.

(** The separators of the listing. *)
Definition TAB : string := String "009"%char EmptyString.
Definition NEWLINE : string := String "010"%char EmptyString.

(** The output of a command that printed the lines [lines]. *)
Fixpoint printed (lines : list string) : string :=
  match lines with
  | [] => EmptyString
  | l :: lines' => l ++ NEWLINE ++ printed lines'
  end.

(** A token for the rules on live sessions and favourites: not ["."], not
    absolute, not made of ['-']. *)
Definition plain_token (token : string) : Prop :=
  token ≠ "." ∧ HasPrefix token "/" = false
  ∧ ∀ n, (1 ≤ n)%nat → token ≠ dashes n.

(** No live session has a name that starts with the token. *)
Definition no_live_match (sessions : list TmuxSession) (token : string) : Prop :=
  Forall (λ s, HasPrefix (ts_Name s) token = false) sessions.

(** No favourite has the token as its name or among its aliases. *)
Definition no_favourite_exact (favs : list FavouriteSession) (token : string) : Prop :=
  Forall (λ fs, fs_Name fs ≠ token ∧ token ∉ range (fs_Aliases fs)) favs.

(** Nor does the name of a favourite start with the token. *)
Definition no_favourite_match (favs : list FavouriteSession) (token : string) : Prop :=
  Forall (λ fs, HasPrefix (fs_Name fs) token = false
                ∧ token ∉ range (fs_Aliases fs)) favs.

(** The paths of the files a run wrote. *)
Definition written_files (evs : list event) : list string :=
  omap (λ e, match e with
             | EvWriteFile path _ _ => Some path
             | _ => None
             end) evs.

(** The call came back to its caller. *)
Definition returned {A} (o : outcome A) : bool :=
  match o with
  | Returned _ => true
  | Fatal _ | Panicked _ | Replaced => false
  end.

(** The end of the run in [log.Fatalf]. *)
Definition is_fatal {A} (o : outcome A) : bool :=
  match o with
  | Fatal _ => true
  | Returned _ | Panicked _ | Replaced => false
  end.

(** ** Temporary projects and the editor (main.go, lines 350-365,
    534-547) *)

(** [fmt.Sprintf("%d", z)]. *)
Definition Sprintf_d (z : Z) : string := NilZero.string_of_int (Z.to_int z).

Section Projects.

Variable W : World.

(** [os.IsExist], on the text of an error. *)
Variable os_IsExist : string → bool.

Definition maxNumber : Z := 1024.

(** The path the loop tries at index [i]. *)
Definition temporary_path (i : Z) : string := "/tmp/t" ++ Sprintf_d i.

(** [createTemporaryProject] (lines 350-365): the loop from index [i] with
    [remaining] indices to go. *)
Fixpoint createTemporaryProject_loop (remaining : nat) (i : Z) : M string :=
  match remaining with
  | O =>
      log_Fatalf ("reached max number of temporary projects (" ++
        Sprintf_d maxNumber ++ "). Please clean your /tmp/t* folders.")
  | S remaining' =>
      let path := temporary_path i in
      emit (EvMkdir path (octal 7 5 0));;
      match os_Mkdir W path (octal 7 5 0) with
      | Some err =>
          if os_IsExist err then createTemporaryProject_loop remaining' (i + 1)
          else log_Fatalf ("cannot create temporary directory: " ++ err)
      | None => mret path
      end
  end.

Definition createTemporaryProject : M string :=
  createTemporaryProject_loop (Z.to_nat maxNumber) 0.

(** [openFileInEditor] (lines 534-547). *)
Definition openFileInEditor (filename : string) : M unit :=
  let editor := os_Getenv W "EDITOR" in
  let editor := if streq editor "" then "nano" else editor in
  let '(editorPath, err) := exec_LookPath W editor in
  match err with
  | Some e => log_Fatalf ("cannot locate editor: " ++ e)
  | None =>
      emit (EvExec editorPath [editor; filename]);;
      match syscall_Exec W editorPath [editor; filename] with
      | Some e => dieIfError (Some e)
      | None => process_replaced
      end
  end.

End Projects.

(** The attempts of the loop at the indices [i], ..., [i + n - 1]. *)
Definition mkdir_attempts (i : Z) (n : nat) : list event :=
  (λ j, EvMkdir (temporary_path (i + Z.of_nat j)) (octal 7 5 0)) <$> seq 0 n.

(** The directory of index [i] exists already, as [os.Mkdir] and
    [os.IsExist] tell. *)
Definition exists_already (W : World) (os_IsExist : string → bool) (i : Z) : Prop :=
  ∃ e, os_Mkdir W (temporary_path i) (octal 7 5 0) = Some e
       ∧ os_IsExist e = true.

(** The editor that [openFileInEditor] starts. *)
Definition chosen_editor (W : World) : string :=
  if streq (os_Getenv W "EDITOR") "" then "nano" else os_Getenv W "EDITOR".

(** The line tmux prints for a session under the format of line 224,
    [#S\t#{session_path}\t#{session_attached}\t#{session_windows}\t#{session_activity}]:
    the name, the path, the number of attached clients, the number of
    windows and the time of the last activity in seconds since 1970, the
    numbers in decimal. *)
Definition tmux_format_line (name path : string) (clients windows activity : Z)
    : string :=
  name ++ TAB ++ path ++ TAB ++ Sprintf_d clients ++ TAB ++
  Sprintf_d windows ++ TAB ++ Sprintf_d activity.

(** ** More sample surroundings *)

(** A home directory with two files and two directories. *)
Definition home_world : World :=
  world_with
    (sample_world ["/home/u/scripts"; "/home/u/src"] [] ("", None)
       (λ _, ("", None)) stable_sort)
    (λ _ _, None)
    (λ _, ([".bashrc"; "scratch.txt"; "scripts"; "src"], None))
    (os_Getenv stable_world).

(** A run outside tmux: [TMUX] is not set. *)
Definition outside_world : World :=
  world_with
    (sample_world ["/home/u"; "/home/u/src"] [] ("", None)
       (λ _, ("", None)) stable_sort)
    (λ _ _, None) (λ _, ([], None)) (λ _, "").

(** Some directories for absolute paths. *)
Definition paths_world : World :=
  sample_world ["/tmp"; "/work"; "/work/proj"] [] ("", None)
    (λ _, ("", None)) stable_sort.

(** The error of [os.Mkdir] on a directory that exists, and [os.IsExist]
    on it. *)
Definition file_exists : string := "file exists".
Definition is_file_exists (e : string) : bool := streq e file_exists.

(** [/tmp/t0], ..., [/tmp/t3] exist. *)
Definition four_taken_world : World :=
  world_with stable_world
    (λ p _, if bool_decide (p ∈ ["/tmp/t0"; "/tmp/t1"; "/tmp/t2"; "/tmp/t3"])
            then Some file_exists else None)
    (os_ReadDir stable_world) (os_Getenv stable_world).

(** The same, seen by [os.Stat] once [/tmp/t4] has been made. *)
Definition temporary_world : World :=
  world_with
    (sample_world ["/tmp"; "/tmp/t0"; "/tmp/t1"; "/tmp/t2"; "/tmp/t3"; "/tmp/t4"]
       [] ("", None) (λ _, ("", None)) stable_sort)
    (os_Mkdir four_taken_world)
    (os_ReadDir stable_world) (os_Getenv stable_world).

(** Every directory exists. *)
Definition all_taken_world : World :=
  world_with stable_world (λ _ _, Some file_exists)
    (os_ReadDir stable_world) (os_Getenv stable_world).

(** The listing of two sessions, with a line that is none between them. *)
Definition listing_lines : list string :=
  [tmux_format_line "web" "/home/u/web" 1 2 1700000000;
   "no current client";
   tmux_format_line "docs" "/home/u/docs" 0 1 1690000000].

Definition listing_world : World :=
  sample_world [] [] (printed listing_lines, None) (λ _, ("", None)) stable_sort.

(** [proj] is bound to another directory, [proj1] to the target's. *)
Definition suffixed_live : list TmuxSession :=
  [live "proj" 1;
   {| ts_Name := "proj1"; ts_Attached := false; ts_LastActivity := 2;
      ts_WindowsCount := 1; ts_Path := "/work/proj" |}].

(** All ten names are bound to other directories. *)
Definition ten_live : list TmuxSession :=
  [live "proj" 1; live "proj1" 2; live "proj2" 3; live "proj3" 4;
   live "proj4" 5; live "proj5" 6; live "proj6" 7; live "proj7" 8;
   live "proj8" 9; live "proj9" 10].

(** * Properties *)

(** ** Strings *)

Lemma streq_true a b : streq a b = true ↔ a = b.
Proof. unfold streq. apply bool_decide_eq_true. Qed.

Lemma streq_false a b : streq a b = false ↔ a ≠ b.
Proof. unfold streq. apply bool_decide_eq_false. Qed.

Lemma streq_refl a : streq a a = true.
Proof. by apply streq_true. Qed.

(** ** The favourites store *)

Section Favourites.

Implicit Types (fc : FavouritesConfig) (l : list FavouriteSession).

Lemma find_index_None name l :
  find_index name l = None ↔ Forall (λ fs, fs_Name fs ≠ name) l.
Proof.
  induction l as [|fs l IH]; simpl.
  - split; [constructor | done].
  - destruct (streq (fs_Name fs) name) eqn:E.
    + apply streq_true in E. split; [done |].
      intros H. apply Forall_cons in H as [H _]. done.
    + apply streq_false in E. rewrite fmap_None, IH, Forall_cons. tauto.
Qed.

Lemma find_index_Some name l i :
  find_index name l = Some i →
  ∃ fs, l !! i = Some fs ∧ fs_Name fs = name
        ∧ Forall (λ fs', fs_Name fs' ≠ name) (take i l).
Proof.
  revert i. induction l as [|fs l IH]; intros i; simpl; [done |].
  destruct (streq (fs_Name fs) name) eqn:E.
  - intros [= <-]. apply streq_true in E. exists fs.
    split; [done |]. split; [done |]. constructor.
  - apply streq_false in E. intros H.
    apply fmap_Some in H as (j & Hj & ->).
    destruct (IH j Hj) as (fs' & ? & ? & ?).
    exists fs'. simpl. split; [done |]. split; [done |]. by constructor.
Qed.

Lemma find_index_head name fs l :
  fs_Name fs = name → find_index name (fs :: l) = Some 0%nat.
Proof. intros H. simpl. apply streq_true in H. by rewrite H. Qed.

(** Whatever [Touch] does outside the ephemeral root, the record called
    [name] ends up first. *)
Lemma Touch_puts_first name path fc :
  HasPrefix path "/tmp/" = false →
  find_index name (Sessions (Touch name path fc)) = Some 0%nat.
Proof.
  intros Htmp. unfold Touch. rewrite Htmp.
  destruct (find_index name (Sessions fc)) as [[|i]|] eqn:E; simpl.
  - done.
  - destruct (find_index_Some _ _ _ E) as (fs & Hfs & Hname & _).
    rewrite Hfs. simpl. apply streq_true in Hname. by rewrite Hname.
  - by rewrite streq_refl.
Qed.

Lemma Touch_first_noop name path fc :
  find_index name (Sessions fc) = Some 0%nat → Touch name path fc = fc.
Proof.
  intros H. unfold Touch. rewrite H. by destruct (HasPrefix path "/tmp/").
Qed.

(** C7: [Touch] is idempotent: a second call with the same arguments
    changes neither the order of the records nor the dirty flag; and a
    [Touch] of the record that is already first changes nothing at all. *)
Theorem Touch_idempotent name path fc :
  Touch name path (Touch name path fc) = Touch name path fc
  ∧ (∀ fs rest, Sessions fc = fs :: rest → fs_Name fs = name →
       Touch name path fc = fc).
Proof.
  split.
  - destruct (HasPrefix path "/tmp/") eqn:Htmp.
    + unfold Touch. by rewrite !Htmp.
    + apply Touch_first_noop. by apply Touch_puts_first.
  - intros fs rest Hs Hname. apply Touch_first_noop.
    rewrite Hs. by apply find_index_head.
Qed.

(** C8: for a name that no record has and a path outside the ephemeral
    root, [Touch] puts one new record (the name, the path, no command,
    empty aliases, empty environment) in front of the unchanged list and
    sets the dirty flag. *)
Theorem Touch_new_name name path fc :
  Forall (λ fs, fs_Name fs ≠ name) (Sessions fc) →
  HasPrefix path "/tmp/" = false →
  Touch name path fc =
    {| Sessions := {| fs_Name := name; fs_Path := path; fs_Cmd := "";
                      fs_Aliases := Some []; fs_Env := Some ∅ |} :: Sessions fc;
       changed := true |}.
Proof.
  intros Hnone Htmp. apply find_index_None in Hnone.
  unfold Touch. by rewrite Htmp, Hnone.
Qed.

(** C10: when the store has a record called [name], [Touch name path]
    keeps every record as it is stored (the list is only rearranged), and
    the record found under [name] afterwards is the one found before, with
    its path, command, aliases and environment, whatever [path] is. *)
Theorem Touch_keeps_record name path fc i r :
  find_index name (Sessions fc) = Some i →
  Sessions fc !! i = Some r →
  Sessions (Touch name path fc) ≡ₚ Sessions fc
  ∧ ∃ j, find_index name (Sessions (Touch name path fc)) = Some j
         ∧ Sessions (Touch name path fc) !! j = Some r.
Proof.
  intros Hi Hr. unfold Touch.
  destruct (HasPrefix path "/tmp/"); [by eauto |].
  rewrite Hi. destruct i as [|i]; [by eauto |].
  rewrite Hr. simpl. split.
  - rewrite <- (take_drop_middle _ _ _ Hr) at 3.
    by rewrite Permutation_middle.
  - exists 0%nat. destruct (find_index_Some _ _ _ Hi) as (fs & Hfs & Hname & _).
    assert (fs = r) as -> by congruence.
    apply streq_true in Hname. by rewrite Hname.
Qed.

End Favourites.

(** ** Saving the history *)

Section Saving.

Variable W : World.

Lemma Save_clean st : changed (Config st) = false → Save W st = (Returned tt, st).
Proof.
  intros H. unfold Save, mbind, M_bind, get_Config. by rewrite H.
Qed.

Lemma Save_dirty st bs :
  changed (Config st) = true →
  json_MarshalIndent W (Sessions (Config st)) = (bs, None) →
  Save W st =
    (match os_WriteFile W (ConfigPath W) bs (octal 6 4 0) with
     | Some e => Panicked ("Got error: " ++ e)
     | None => Returned tt
     end,
     {| Config := Config st;
        events := events st ++ [EvWriteFile (ConfigPath W) bs (octal 6 4 0)] |}).
Proof.
  intros H Hbs. unfold Save, mbind, M_bind, get_Config. rewrite H, Hbs. simpl.
  by destruct (os_WriteFile W _ _ _).
Qed.

(** C9 (amended): [Save] does nothing when the dirty flag is false; when it
    is true it encodes the whole ordered list and writes it to the config
    path with mode 0640, which is read and write for the owner, read for
    the group and nothing for the others. *)
Theorem Save_writes_mode_0640 st :
  (changed (Config st) = false → Save W st = (Returned tt, st))
  ∧ (changed (Config st) = true →
     ∀ bs, json_MarshalIndent W (Sessions (Config st)) = (bs, None) →
       Save W st =
         (match os_WriteFile W (ConfigPath W) bs (octal 6 4 0) with
          | Some e => Panicked ("Got error: " ++ e)
          | None => Returned tt
          end,
          {| Config := Config st;
             events := events st ++ [EvWriteFile (ConfigPath W) bs (octal 6 4 0)] |}))
  ∧ octal 6 4 0 = Z.lor (octal 6 0 0) (octal 0 4 0)
  ∧ owner_only (octal 6 4 0) = false.
Proof.
  split; [apply Save_clean |].
  split; [intros H bs Hbs; by apply Save_dirty |].
  split; reflexivity.
Qed.

End Saving.

(** ** Calls to the session backend *)

Section Backend.

Variable W : World.

Lemma emit_emit e1 e2 st :
  (emit e1;; emit e2) st
  = (Returned tt, {| Config := Config st; events := events st ++ [e1; e2] |}).
Proof.
  unfold mbind, M_bind, emit. simpl. by rewrite <- app_assoc.
Qed.

Lemma listSessions_failure out e st :
  tmux_list_sessions W = (out, Some e) →
  listSessions W st =
    (Returned [],
     {| Config := Config st;
        events := events st ++
          [EvTmuxListSessions;
           EvLog ("tmux list-sessions: " ++ e ++ ": " ++ out)] |}).
Proof.
  intros H. unfold listSessions. rewrite H.
  unfold mbind, M_bind, log_Printf, emit, mret, M_ret. simpl.
  by rewrite <- app_assoc.
Qed.

Lemma createSession_failure name path cmd env e st :
  tmux_new W name path cmd env = Some e →
  createSession W name path cmd env st =
    (Panicked ("Got error: " ++ e),
     {| Config := Config st;
        events := events st ++ [EvTmuxNew name path cmd env] |}).
Proof.
  intros H. unfold createSession, mbind, M_bind, emit. simpl. by rewrite H.
Qed.

Lemma switchToSession_failure name out e st :
  os_Getenv W "TMUX" ≠ "" →
  tmux_switch_client W name = (out, Some e) →
  switchToSession W name st =
    (Panicked ("Got error: " ++ e),
     {| Config := Config st;
        events := events st ++
          [EvTmuxSwitchClient name; EvLog ("failed: " ++ out)] |}).
Proof.
  intros Henv H. unfold switchToSession.
  apply streq_false in Henv. rewrite Henv, H. simpl.
  unfold mbind, M_bind, log_Printf, emit. simpl. by rewrite <- app_assoc.
Qed.

(** C2 (amended): a failing [list-sessions] is logged with the error and
    the raw output of tmux, and the run goes on with an empty list of live
    sessions: with a target token it resolves the token and saves, without
    one it prints the listing; a failing [new] ends the run in a panic that
    carries the error; a failing [switch-client] logs the raw output of
    tmux and ends the run in a panic. *)
Theorem backend_failure_handling st :
  (∀ out e, tmux_list_sessions W = (out, Some e) →
     let st' := {| Config := Config st;
                   events := events st ++
                     [EvTmuxListSessions;
                      EvLog ("tmux list-sessions: " ++ e ++ ": " ++ out)] |} in
     listSessions W st = (Returned [], st')
     ∧ (∀ sessionId allow wide all, sessionId ≠ "" →
          main W sessionId allow wide all st
          = (ChangeSession W [] sessionId allow;; Save W) st')
     ∧ (∀ allow wide all,
          main W "" allow wide all st = printSessions W [] wide all st'))
  ∧ (∀ name path cmd env e, tmux_new W name path cmd env = Some e →
       createSession W name path cmd env st =
         (Panicked ("Got error: " ++ e),
          {| Config := Config st;
             events := events st ++ [EvTmuxNew name path cmd env] |}))
  ∧ (∀ name out e,
       os_Getenv W "TMUX" ≠ "" →
       tmux_switch_client W name = (out, Some e) →
       switchToSession W name st =
         (Panicked ("Got error: " ++ e),
          {| Config := Config st;
             events := events st ++
               [EvTmuxSwitchClient name; EvLog ("failed: " ++ out)] |})).
Proof.
  split; [| split].
  - intros out e H st'. split; [by apply listSessions_failure |].
    split.
    + intros sessionId allow wide all Hid. unfold main.
      unfold mbind at 1. unfold M_bind at 1.
      rewrite (listSessions_failure _ _ _ H).
      apply streq_false in Hid. by rewrite Hid.
    + intros allow wide all. unfold main.
      unfold mbind at 1. unfold M_bind at 1.
      by rewrite (listSessions_failure _ _ _ H).
  - intros. by apply createSession_failure.
  - intros. by apply switchToSession_failure.
Qed.

End Backend.

(** ** Materialisation *)

Section Materialize.

Variable W : World.

Lemma sessionsByName_snoc l s :
  sessionsByName (l ++ [s]) = <[ts_Name s := s]> (sessionsByName l).
Proof. unfold sessionsByName. by rewrite foldl_app. Qed.

(** The map holds, under a name, the last session of the listing that has
    this name. *)
Lemma sessionsByName_lookup l k :
  sessionsByName l !! k = last (filter (λ s, ts_Name s = k) l).
Proof.
  induction l as [|s l IH] using rev_ind.
  - done.
  - rewrite sessionsByName_snoc, filter_app, lookup_insert.
    rewrite filter_cons, filter_nil.
    case_decide; [by rewrite last_snoc | by rewrite app_nil_r].
Qed.

Lemma filter_name_nil (l : list TmuxSession) k :
  filter (λ s, ts_Name s = k) l = [] ↔ Forall (λ s, ts_Name s ≠ k) l.
Proof.
  induction l as [|s l IH].
  - split; [constructor | done].
  - rewrite filter_cons, Forall_cons. case_decide; [| tauto].
    split; [done | tauto].
Qed.

Lemma sessionsByName_None l k :
  sessionsByName l !! k = None ↔ Forall (λ s, ts_Name s ≠ k) l.
Proof. by rewrite sessionsByName_lookup, last_None, filter_name_nil. Qed.

Lemma materialize_loop_occupied byName t suffix suffixes st :
  occupied byName t suffix →
  materialize_loop W byName t (suffix :: suffixes) st
  = materialize_loop W byName t suffixes st.
Proof.
  intros (s & Hs & Hpath). simpl. rewrite Hs.
  apply streq_false in Hpath. by rewrite Hpath.
Qed.

(** With the names before a free candidate occupied, the loop stops at the
    free candidate, and what it creates and switches to is [sessionName t]
    itself: the suffix of the candidate is not used. *)
Lemma materialize_loop_first_free byName t pre suffix post st :
  Forall (occupied byName t) pre →
  byName !! (sessionName t ++ suffix) = None →
  materialize_loop W byName t (pre ++ suffix :: post) st
  = (modify_Config (Touch (sessionName t) (sessionDirPath t));;
     createSession W (sessionName t) (sessionDirPath t)
       (sessionStartCmd t) (sessionEnv t);;
     switchToSession W (sessionName t)) st.
Proof.
  intros Hpre Hfree. induction Hpre as [|x pre Hx _ IH]; simpl.
  - by rewrite Hfree.
  - destruct Hx as (s & Hs & Hpath). rewrite Hs.
    apply streq_false in Hpath. by rewrite Hpath.
Qed.

(** With all the candidates occupied, the run ends in [log.Fatalf] and has
    done nothing. *)
Lemma materialize_exhausted sessions t st :
  Forall (occupied (sessionsByName sessions) t) SUFFIXES →
  materialize W sessions t st
  = (Fatal ("cannot create session " ++ sessionName t ++
       " because names " ++ sessionName t ++ ", " ++
       (sessionName t ++ "1") ++ ".." ++ (sessionName t ++ "9") ++
       " are occupied"), st).
Proof.
  unfold materialize. generalize SUFFIXES at 1 2.
  intros l Hl. induction Hl as [|x l Hx _ IH]; [done |].
  by rewrite materialize_loop_occupied.
Qed.

(** [switchToSession] asks for no new session. *)
Lemma switchToSession_creates_nothing name st :
  created_names (events (switchToSession W name st).2) = created_names (events st)
  ∧ Config (switchToSession W name st).2 = Config st.
Proof.
  unfold switchToSession, created_names.
  destruct (negb (streq (os_Getenv W "TMUX") "")).
  - destruct (tmux_switch_client W name) as [out [e|]];
      unfold mbind, M_bind, log_Printf, emit; simpl;
      rewrite ?omap_app; simpl; by rewrite ?app_nil_r.
  - destruct (exec_LookPath W "tmux") as [p [e|]];
      unfold mbind, M_bind, emit; simpl; [done |].
    destruct (syscall_Exec W p _); simpl;
      rewrite ?omap_app; simpl; by rewrite ?app_nil_r.
Qed.

(** C1 (at the failing input): with the live session [proj] bound to
    another directory and no live session [proj1], the run touches the
    history under the bare name and asks tmux for a new session called
    [proj], the name of the colliding live session, and for no session
    called [proj1]. *)
Theorem materialize_collision_creates_bare_name (fc : FavouritesConfig)
    (cmd : string) (env : option (gmap string string)) :
  occupied (sessionsByName collision_live) (collision_target cmd env) ""
  ∧ sessionsByName collision_live !! "proj1" = None
  ∧ Config (materialize W collision_live (collision_target cmd env) (start fc)).2
    = Touch "proj" "/work/proj" fc
  ∧ created_names
      (events (materialize W collision_live (collision_target cmd env) (start fc)).2)
    = ["proj"].
Proof.
  assert (Hocc : occupied (sessionsByName collision_live) (collision_target cmd env) "").
  { eexists. split; [by rewrite sessionsByName_lookup | done]. }
  assert (Hfree : sessionsByName collision_live !! "proj1" = None).
  { by rewrite sessionsByName_lookup. }
  split; [done |]. split; [done |].
  unfold materialize.
  rewrite (materialize_loop_first_free _ _ [""] "1"
             ["2"; "3"; "4"; "5"; "6"; "7"; "8"; "9"])
    by (by constructor).
  unfold mbind, M_bind, modify_Config, createSession, emit, start. simpl.
  destruct (tmux_new W "proj" "/work/proj" cmd env) as [e|]; simpl; [done |].
  match goal with
  | |- context [switchToSession W ?n ?s] =>
      destruct (switchToSession_creates_nothing n s) as [Hev Hcfg];
      destruct (switchToSession W n s) as [o st']
  end.
  simpl in *. by rewrite Hev, Hcfg.
Qed.

End Materialize.

(** ** Sorting by activity *)

Section Sorting.

Context {A : Type} `{EqDecision A} (less : A → A → bool).
Hypothesis Hless : strict_weak_order less.

Lemma less_asym x y : less x y = true → less y x = false.
Proof.
  intros Hxy. destruct (less y x) eqn:Hyx; [| done].
  pose proof (swo_trans _ Hless _ _ _ Hxy Hyx) as H.
  by rewrite (swo_irrefl _ Hless) in H.
Qed.

Lemma insert_before_equal_perm x l : insert_before_equal less x l ≡ₚ x :: l.
Proof.
  induction l as [|y l IH]; simpl; [done |].
  destruct (less y x); [| done]. rewrite IH. apply Permutation_swap.
Qed.

Lemma insert_after_equal_perm x l : insert_after_equal less x l ≡ₚ x :: l.
Proof.
  induction l as [|y l IH]; simpl; [done |].
  destruct (less x y); [done |]. rewrite IH. apply Permutation_swap.
Qed.

Lemma insert_before_equal_sorted x l :
  sorted_by less l → sorted_by less (insert_before_equal less x l).
Proof.
  unfold sorted_by. induction 1 as [|y l Hl IH Hy]; simpl.
  - repeat constructor.
  - destruct (less y x) eqn:Hyx.
    + constructor; [done |].
      rewrite insert_before_equal_perm. constructor; [| done].
      by apply less_asym.
    + constructor; [by constructor |].
      constructor; [done |].
      eapply Forall_impl; [exact Hy |]. simpl. intros z Hz.
      by apply (swo_incomparable _ Hless z y x).
Qed.

Lemma insert_after_equal_sorted x l :
  sorted_by less l → sorted_by less (insert_after_equal less x l).
Proof.
  unfold sorted_by. induction 1 as [|y l Hl IH Hy]; simpl.
  - repeat constructor.
  - destruct (less x y) eqn:Hxy.
    + constructor; [by constructor |].
      constructor; [by apply less_asym |].
      eapply Forall_impl; [exact Hy |]. simpl. intros z Hz.
      destruct (less z x) eqn:Hzx; [| done].
      by rewrite (swo_trans _ Hless _ _ _ Hzx Hxy) in Hz.
    + constructor; [done |].
      rewrite insert_after_equal_perm. by constructor.
Qed.

(** Where distinct elements are comparable, a list has one sorted
    arrangement only. *)
Lemma sorted_by_unique (l1 l2 : list A) :
  (∀ x y, x ∈ l1 → y ∈ l1 → x ≠ y → less x y = true ∨ less y x = true) →
  l1 ≡ₚ l2 → sorted_by less l1 → sorted_by less l2 → l1 = l2.
Proof.
  unfold sorted_by. revert l2.
  induction l1 as [|x l1 IH]; intros l2 Hcmp Hperm H1 H2.
  - by apply Permutation_nil_l in Hperm.
  - destruct l2 as [|y l2]; [by apply Permutation_nil_r in Hperm |].
    apply StronglySorted_inv in H1 as [H1 Hx].
    apply StronglySorted_inv in H2 as [H2 Hy].
    assert (x = y) as <-.
    { destruct (decide (x = y)) as [| Hne]; [done |]. exfalso.
      assert (y ∈ l1) as Hin1.
      { assert (y ∈ x :: l1) as Hin by (rewrite Hperm; left).
        apply elem_of_cons in Hin as [-> | Hin]; done. }
      assert (x ∈ l2) as Hin2.
      { assert (x ∈ y :: l2) as Hin by (rewrite <- Hperm; left).
        apply elem_of_cons in Hin as [-> | Hin]; done. }
      rewrite Forall_forall in Hx. specialize (Hx y Hin1).
      rewrite Forall_forall in Hy. specialize (Hy x Hin2).
      destruct (Hcmp x y) as [H | H]; [left | by right | done | |];
        simpl in *; congruence. }
    f_equal. apply IH; [| by eapply Permutation_cons_inv | done | done].
    intros a b Ha Hb. apply Hcmp; by right.
Qed.

End Sorting.

Lemma less_activity_order : strict_weak_order less_activity.
Proof.
  unfold less_activity, After. split.
  - intros x. apply Z.ltb_irrefl.
  - intros x y z H1%Z.ltb_lt H2%Z.ltb_lt. apply Z.ltb_lt. lia.
  - intros x y z H1%Z.ltb_ge H2%Z.ltb_ge. apply Z.ltb_ge. lia.
Qed.

Lemma stable_sort_contract {A} : sort_Slice_contract (@stable_sort A).
Proof.
  split.
  - intros less l. induction l as [|x l IH]; simpl; [done |].
    by rewrite insert_before_equal_perm, IH.
  - intros less l Hless. induction l as [|x l IH]; simpl; [constructor |].
    by apply insert_before_equal_sorted.
Qed.

Lemma reversing_sort_contract {A} : sort_Slice_contract (@reversing_sort A).
Proof.
  split.
  - intros less l. induction l as [|x l IH]; simpl; [done |].
    by rewrite insert_after_equal_perm, IH.
  - intros less l Hless. induction l as [|x l IH]; simpl; [constructor |].
    by apply insert_after_equal_sorted.
Qed.

Lemma NoDup_fmap_eq {A B} (f : A → B) (l : list A) x y :
  NoDup (f <$> l) → x ∈ l → y ∈ l → f x = f y → x = y.
Proof.
  induction l as [|z l IH]; intros Hnd Hx Hy Hf; [by apply elem_of_nil in Hx |].
  rewrite fmap_cons in Hnd. apply NoDup_cons in Hnd as [Hz Hnd].
  apply elem_of_cons in Hx as [-> | Hx]; apply elem_of_cons in Hy as [-> | Hy].
  - done.
  - exfalso. apply Hz. rewrite Hf. by apply list_elem_of_fmap_2.
  - exfalso. apply Hz. rewrite <- Hf. by apply list_elem_of_fmap_2.
  - by apply IH.
Qed.

(** Sessions of pairwise distinct activity are comparable. *)
Lemma distinct_activity_comparable (l : list TmuxSession) x y :
  NoDup (ts_LastActivity <$> l) → x ∈ l → y ∈ l → x ≠ y →
  less_activity x y = true ∨ less_activity y x = true.
Proof.
  intros Hnd Hx Hy Hne. unfold less_activity, After.
  destruct (Z.lt_trichotomy (ts_LastActivity x) (ts_LastActivity y))
    as [H | [H | H]].
  - right. by apply Z.ltb_lt.
  - destruct Hne. by eapply NoDup_fmap_eq.
  - left. by apply Z.ltb_lt.
Qed.

Lemma sorted_by_lookup {A} (less : A → A → bool) (l : list A) i j x y :
  sorted_by less l → (i < j)%nat → l !! i = Some x → l !! j = Some y →
  less y x = false.
Proof.
  intros Hs Hij Hi Hj. rewrite <- (take_drop j l) in Hs.
  apply (StronglySorted_app_1_elem_of _ _ _ x y) in Hs; [done | |].
  - apply list_elem_of_lookup. exists i. by rewrite lookup_take_lt.
  - apply list_elem_of_lookup. exists 0%nat. rewrite lookup_drop.
    by rewrite Nat.add_0_r.
Qed.

(** ** The previous-session marker *)

Lemma only_char_dashes n : only_char (dashes n) "-" = true.
Proof. induction n; [done |]. simpl. done. Qed.

Lemma length_dashes n : String.length (dashes n) = n.
Proof. induction n; simpl; congruence. Qed.

Lemma countRepeatedChars_dashes n :
  countRepeatedChars (dashes n) "-" = Z.of_nat n.
Proof.
  unfold countRepeatedChars. by rewrite only_char_dashes, length_dashes.
Qed.

Lemma dashes_not_here n : streq (dashes n) "." = false.
Proof. apply streq_false. by destruct n. Qed.

Lemma dashes_not_absolute n : HasPrefix (dashes n) "/" = false.
Proof. by destruct n. Qed.

Section Previous.

Variable W : World.

Lemma resolve_home_named sessionId t st :
  sessionName t ≠ "" → resolve_home W sessionId t st = (Returned t, st).
Proof.
  intros H. apply streq_false in H.
  unfold resolve_home, home_prefix, home_exact. rewrite H.
  unfold mbind, M_bind, mret, M_ret. rewrite H. simpl. by rewrite H.
Qed.

Lemma resolve_dashes sessions allow st (N : nat) :
  (1 ≤ N)%nat →
  resolve W sessions (dashes N) allow st
  = (resolve_previous W sessions (Z.of_nat N) ≫= resolve_home W (dashes N)) st.
Proof.
  intros HN. unfold resolve.
  rewrite dashes_not_here. unfold mbind at 1. unfold M_bind at 1.
  unfold mret at 1. unfold M_ret at 1.
  rewrite dashes_not_absolute, countRepeatedChars_dashes.
  assert ((0 <? Z.of_nat N) = true) as -> by (apply Z.ltb_lt; lia).
  done.
Qed.

Hypothesis sort_contract : sort_Slice_contract (sort_Slice W).

Lemma resolve_previous_selects sessions (N : nat) st :
  (1 ≤ N)%nat → (2 ≤ length sessions)%nat →
  ∃ s, sort_Slice W less_activity sessions
         !! (N `min` (length sessions - 1))%nat = Some s
       ∧ resolve_previous W sessions (Z.of_nat N) st
         = (Returned (set_session s no_target), st).
Proof.
  intros HN Hlen.
  pose proof (Permutation_length (sort_Slice_perm _ sort_contract less_activity sessions))
    as Hlen'.
  destruct (lookup_lt_is_Some_2 (sort_Slice W less_activity sessions)
              (N `min` (length sessions - 1))%nat) as [s Hs]; [lia |].
  exists s. split; [done |].
  unfold resolve_previous.
  assert ((Z.of_nat (length sessions) <? 2) = false) as -> by (apply Z.ltb_ge; lia).
  assert (Z.to_nat (if Z.of_nat N >=? Z.of_nat (length sessions)
                    then Z.of_nat (length sessions) - 1 else Z.of_nat N)
          = (N `min` (length sessions - 1))%nat) as ->.
  { destruct (Z.geb_spec (Z.of_nat N) (Z.of_nat (length sessions))); lia. }
  by rewrite Hs.
Qed.



End Previous.

(** ** Live sessions by prefix, favourites by name and alias *)

Lemma only_char_dashes_inv s : only_char s "-" = true → s = dashes (String.length s).
Proof.
  induction s as [|c s IH]; simpl; [done |].
  destruct (Ascii.eqb c "-") eqn:E; [| done].
  apply Ascii.eqb_eq in E as ->. intros H. by rewrite <- IH.
Qed.

(** A token that is not a positive number of ['-'] is not taken by the
    previous-session rule. *)
Lemma countRepeatedChars_other token :
  (∀ n, (1 ≤ n)%nat → token ≠ dashes n) → countRepeatedChars token "-" = 0.
Proof.
  intros H. unfold countRepeatedChars.
  destruct (only_char token "-") eqn:E; [| done].
  apply only_char_dashes_inv in E.
  destruct (String.length token) as [|n] eqn:Hlen; [done |].
  destruct (H (S n)); [lia | done].
Qed.

Lemma prefix_of_empty p : HasPrefix "" p = true → p = "".
Proof. by destruct p. Qed.

Lemma set_session_twice s s' t : set_session s (set_session s' t) = set_session s t.
Proof. done. Qed.

Lemma live_prefix_loop_last sessions token t :
  foldl (λ t s, if HasPrefix (ts_Name s) token then set_session s t else t)
        t sessions
  = match last (filter (λ s, HasPrefix (ts_Name s) token = true) sessions) with
    | Some s => set_session s t
    | None => t
    end.
Proof.
  induction sessions as [|s l IH] using rev_ind; [done |].
  rewrite foldl_app, filter_app, IH. simpl.
  rewrite filter_cons, filter_nil.
  destruct (HasPrefix (ts_Name s) token) eqn:E.
  - rewrite decide_True by done. rewrite last_snoc.
    by destruct (last _).
  - rewrite decide_False by done. by rewrite app_nil_r.
Qed.

Lemma existsb_streq id (l : list string) :
  existsb (λ a, streq a id) l = true ↔ id ∈ l.
Proof.
  rewrite existsb_exists, list_elem_of_In. split.
  - intros (a & Ha & ->%streq_true). done.
  - intros H. exists id. by rewrite streq_refl.
Qed.

Lemma favourite_exact_loop_found id pre R post t :
  sessionName t = "" →
  Forall (λ fs, fs_Name fs ≠ id ∧ id ∉ range (fs_Aliases fs)) pre →
  fs_Name R = id ∨ (id ∈ range (fs_Aliases R) ∧ fs_Name R ≠ "") →
  favourite_exact_loop id (pre ++ R :: post) t = set_favourite R.
Proof.
  intros Ht Hpre HR. induction Hpre as [|fs pre [Hname Halias] _ IH]; simpl.
  - destruct (streq (fs_Name R) id) eqn:E; [done |].
    destruct HR as [HR | [HR Hne]]; [by apply streq_true in HR; congruence |].
    apply existsb_streq in HR. rewrite HR. simpl.
    apply streq_false in Hne. by rewrite Hne.
  - apply streq_false in Hname. rewrite Hname.
    destruct (existsb _ _) eqn:E; [by apply existsb_streq in E |].
    by rewrite Ht.
Qed.

Lemma prefix_project_p s : HasPrefix s "project" = true → HasPrefix s "p" = true.
Proof.
  destruct s as [|c s]; [done |].
  change (HasPrefix (String c s) "project")
    with (Ascii.eqb "p" c && HasPrefix s "roject").
  change (HasPrefix (String c s) "p") with (Ascii.eqb "p" c && true).
  by destruct (Ascii.eqb "p" c).
Qed.

Lemma HasPrefix_refl s : HasPrefix s s = true.
Proof.
  induction s as [|c s IH]; [done |]. simpl.
  by rewrite Ascii.eqb_refl.
Qed.

Section Rules.

Variable W : World.

(** The chain of the live and favourite rules, as [resolve] runs it for a
    token that is neither ["."], nor absolute, nor made of ['-']. *)
Lemma resolve_by_rules sessions token allow st :
  token ≠ "." →
  HasPrefix token "/" = false →
  (∀ n, (1 ≤ n)%nat → token ≠ dashes n) →
  resolve W sessions token allow st
  = resolve_home W token
      (favourite_prefix (Sessions (Config st)) token
         (favourite_exact (Sessions (Config st)) token
            (live_prefix sessions token
               (live_exact sessions token no_target)))) st.
Proof.
  intros Hdot Habs Hdash. unfold resolve.
  apply streq_false in Hdot. rewrite Hdot.
  unfold mbind at 1. unfold M_bind at 1. unfold mret at 1. unfold M_ret at 1.
  rewrite Habs, (countRepeatedChars_other _ Hdash). simpl.
  done.
Qed.

(** C5: a token that no earlier rule takes (not ["."], not absolute, not
    made of ['-'], not the name of a live session) and that is a prefix of
    the name of some live session resolves to the last such session of the
    listing: its name and its directory. *)
Theorem resolve_live_prefix_last sessions token allow st :
  token ≠ "." →
  HasPrefix token "/" = false →
  (∀ n, (1 ≤ n)%nat → token ≠ dashes n) →
  Forall (λ s, ts_Name s ≠ token) sessions →
  (∃ s, s ∈ sessions ∧ HasPrefix (ts_Name s) token = true) →
  ∃ s, last (filter (λ s, HasPrefix (ts_Name s) token = true) sessions) = Some s
       ∧ resolve W sessions token allow st
         = (Returned {| sessionName := ts_Name s; sessionDirPath := ts_Path s;
                        sessionStartCmd := ""; sessionEnv := None |}, st).
Proof.
  intros Hdot Habs Hdash Hexact (s0 & Hin0 & Hpre0).
  destruct (last (filter (λ s, HasPrefix (ts_Name s) token = true) sessions))
    as [s|] eqn:Hlast.
  2: { apply last_None in Hlast.
       assert (s0 ∈ filter (λ s, HasPrefix (ts_Name s) token = true) sessions)
         as Hin by (by apply list_elem_of_filter).
       rewrite Hlast in Hin. by apply elem_of_nil in Hin. }
  exists s. split; [done |].
  assert (s ∈ filter (λ s, HasPrefix (ts_Name s) token = true) sessions) as Hs
    by (by apply last_Some_elem_of).
  apply list_elem_of_filter in Hs as [Hpre Hin].
  assert (ts_Name s ≠ "") as Hname.
  { intros Hempty. rewrite Forall_forall in Hexact.
    apply (Hexact s Hin). rewrite Hempty in *.
    symmetry. by apply prefix_of_empty. }
  rewrite resolve_by_rules by done.
  assert (live_exact sessions token no_target = no_target) as ->.
  { unfold live_exact.
    by rewrite (proj2 (sessionsByName_None sessions token) Hexact). }
  assert (live_prefix sessions token no_target = set_session s no_target) as ->.
  { unfold live_prefix. simpl. by rewrite live_prefix_loop_last, Hlast. }
  apply streq_false in Hname.
  unfold favourite_exact, favourite_prefix. simpl. rewrite Hname.
  simpl. rewrite Hname.
  apply resolve_home_named. by apply streq_false.
Qed.

(** C6: with a favourite called "project" that has the alias "p", no
    live session whose name starts with "p", and no earlier favourite
    that has either token as its name or among its aliases, the tokens
    "p" and "project" resolve to the same target: the name, directory,
    start command and environment of that favourite. *)
Theorem resolve_alias_as_name sessions allow st
    (pre : list FavouriteSession) (R : FavouriteSession)
    (post : list FavouriteSession) :
  Sessions (Config st) = (pre ++ R :: post)%list →
  fs_Name R = "project" →
  "p" ∈ range (fs_Aliases R) →
  Forall (λ s, HasPrefix (ts_Name s) "p" = false) sessions →
  Forall (λ fs, (fs_Name fs ≠ "p" ∧ "p" ∉ range (fs_Aliases fs))
                ∧ (fs_Name fs ≠ "project" ∧ "project" ∉ range (fs_Aliases fs)))
         pre →
  resolve W sessions "p" allow st = resolve W sessions "project" allow st
  ∧ resolve W sessions "project" allow st
    = (Returned {| sessionName := fs_Name R; sessionDirPath := fs_Path R;
                   sessionStartCmd := fs_Cmd R; sessionEnv := fs_Env R |}, st).
Proof.
  intros Hfavs HR Halias Hlive Hpre.
  assert (∀ token,
            token ≠ "." → HasPrefix token "/" = false →
            (∀ n, (1 ≤ n)%nat → token ≠ dashes n) →
            (∀ s, HasPrefix s token = true → HasPrefix s "p" = true) →
            Forall (λ fs, fs_Name fs ≠ token ∧ token ∉ range (fs_Aliases fs)) pre →
            fs_Name R = token ∨ (token ∈ range (fs_Aliases R) ∧ fs_Name R ≠ "") →
            resolve W sessions token allow st = (Returned (set_favourite R), st))
    as Hgo.
  { intros token Hdot Habs Hdash Hweak Hnone Hfound.
    rewrite resolve_by_rules by done.
    assert (Forall (λ s, HasPrefix (ts_Name s) token = false) sessions) as Hlive'.
    { eapply Forall_impl; [exact Hlive |]. intros s Hs. cbv beta in *.
      destruct (HasPrefix (ts_Name s) token) eqn:E; [| done].
      by rewrite (Hweak _ E) in Hs. }
    assert (live_exact sessions token no_target = no_target) as ->.
    { unfold live_exact.
      rewrite (proj2 (sessionsByName_None sessions token)); [done |].
      eapply Forall_impl; [exact Hlive' |]. intros s Hs Heq. cbv beta in *.
      by rewrite Heq, HasPrefix_refl in Hs. }
    assert (live_prefix sessions token no_target = no_target) as ->.
    { unfold live_prefix. simpl. rewrite live_prefix_loop_last.
      destruct (last _) as [s|] eqn:Hlast; [| done].
      apply last_Some_elem_of, list_elem_of_filter in Hlast as [Hs Hin].
      rewrite Forall_forall in Hlive'. by rewrite (Hlive' s Hin) in Hs. }
    unfold favourite_exact. simpl. rewrite Hfavs.
    rewrite (favourite_exact_loop_found token pre R post no_target) by done.
    assert (sessionName (set_favourite R) ≠ "") as Hnamed
      by (simpl; by rewrite HR).
    unfold favourite_prefix.
    rewrite (proj2 (streq_false _ _) Hnamed).
    by apply resolve_home_named. }
  assert (resolve W sessions "project" allow st = (Returned (set_favourite R), st))
    as Hproject.
  { apply Hgo; try done.
    - intros [|[|n]] Hn; [lia | done | done].
    - apply prefix_project_p.
    - eapply Forall_impl; [exact Hpre |]. simpl. tauto.
    - by left. }
  split; [| done]. rewrite Hproject.
  apply Hgo; try done.
  - intros [|[|n]] Hn; [lia | done | done].
  - eapply Forall_impl; [exact Hpre |]. simpl. tauto.
  - right. split; [done |]. by rewrite HR.
Qed.

End Rules.

(** * Worked instances *)

(** ** The favourites store *)

Lemma Touch_idempotent_witness :
  Sessions sample_config = [sample_notes; sample_project]
  ∧ fs_Name sample_notes = "notes"
  ∧ Touch "notes" "/home/u/elsewhere" sample_config = sample_config.
Proof.
  split; [reflexivity |]. split; [reflexivity |].
  apply (proj2 (Touch_idempotent "notes" "/home/u/elsewhere" sample_config)
           sample_notes [sample_project]); reflexivity.
Defined.

Lemma Touch_new_name_witness :
  Forall (λ fs, fs_Name fs ≠ "fresh") (Sessions sample_config)
  ∧ HasPrefix "/home/u/fresh" "/tmp/" = false
  ∧ Touch "fresh" "/home/u/fresh" sample_config =
      {| Sessions := {| fs_Name := "fresh"; fs_Path := "/home/u/fresh";
                        fs_Cmd := ""; fs_Aliases := Some []; fs_Env := Some ∅ |}
                     :: Sessions sample_config;
         changed := true |}.
Proof.
  assert (H : Forall (λ fs, fs_Name fs ≠ "fresh") (Sessions sample_config))
    by (repeat constructor; discriminate).
  split; [exact H |]. split; [reflexivity |].
  apply (Touch_new_name "fresh" "/home/u/fresh" sample_config H). reflexivity.
Defined.

Lemma Touch_keeps_record_witness :
  find_index "project" (Sessions sample_config) = Some 1%nat
  ∧ Sessions sample_config !! 1%nat = Some sample_project
  ∧ Sessions (Touch "project" "/srv/project" sample_config) ≡ₚ Sessions sample_config
  ∧ ∃ j, find_index "project" (Sessions (Touch "project" "/srv/project" sample_config))
         = Some j
         ∧ Sessions (Touch "project" "/srv/project" sample_config) !! j
           = Some sample_project.
Proof.
  split; [reflexivity |]. split; [reflexivity |].
  apply (Touch_keeps_record "project" "/srv/project" sample_config 1 sample_project);
    reflexivity.
Defined.

(** The stored path of a touched record stays, whatever path is given. *)
Example Touch_other_path :
  Sessions (Touch "project" "/srv/project" sample_config)
  = [sample_project; sample_notes].
Proof. reflexivity. Qed.

(** ** Saving *)

Lemma Save_writes_mode_0640_witness :
  (changed (Config (start sample_config)) = false
   ∧ Save stable_world (start sample_config) = (Returned tt, start sample_config))
  ∧ (changed (Config (start dirty_config)) = true
     ∧ json_MarshalIndent stable_world (Sessions (Config (start dirty_config)))
       = ("{}", None)
     ∧ Save stable_world (start dirty_config) =
         (Returned tt,
          {| Config := dirty_config;
             events := [EvWriteFile "/home/u/.config/pr.json" "{}" (octal 6 4 0)] |})).
Proof.
  split.
  - split; [reflexivity |].
    apply (proj1 (Save_writes_mode_0640 stable_world (start sample_config))).
    reflexivity.
  - split; [reflexivity |]. split; [reflexivity |].
    apply (proj1 (proj2 (Save_writes_mode_0640 stable_world (start dirty_config)))
             eq_refl "{}" eq_refl).
Defined.

(** C9, as stated, fails: the one write of a dirty store asks for a mode
    that is not for the owner only. *)
Lemma Save_mode_not_owner_only :
  changed (Config (start dirty_config)) = true
  ∧ events (Save stable_world (start dirty_config)).2
    = [EvWriteFile "/home/u/.config/pr.json" "{}" 416]
  ∧ Z.testbit 416 5 = true
  ∧ writes_owner_only (events (Save stable_world (start dirty_config)).2) = false.
Proof. repeat split. Qed.

(** ** The session backend *)

Lemma backend_failure_handling_witness :
  tmux_list_sessions no_server_world
    = ("no server running on /tmp/tmux-1000/default", Some "exit status 1")
  ∧ "/tmp/x" ≠ ""
  ∧ tmux_new one_session_world "proj" "/work/proj" "" None = Some "exit status 1"
  ∧ os_Getenv one_session_world "TMUX" ≠ ""
  ∧ tmux_switch_client one_session_world "gone"
    = ("can't find session: gone", Some "exit status 1")
  ∧ listSessions no_server_world (start empty_config) =
      (Returned [],
       {| Config := empty_config;
          events := [EvTmuxListSessions;
                     EvLog "tmux list-sessions: exit status 1: no server running on /tmp/tmux-1000/default"] |})
  ∧ main no_server_world "/tmp/x" false false false (start empty_config) =
      (ChangeSession no_server_world [] "/tmp/x" false;; Save no_server_world)
        {| Config := empty_config;
           events := [EvTmuxListSessions;
                      EvLog "tmux list-sessions: exit status 1: no server running on /tmp/tmux-1000/default"] |}
  ∧ main no_server_world "" false false false (start empty_config) =
      printSessions no_server_world [] false false
        {| Config := empty_config;
           events := [EvTmuxListSessions;
                      EvLog "tmux list-sessions: exit status 1: no server running on /tmp/tmux-1000/default"] |}
  ∧ createSession one_session_world "proj" "/work/proj" "" None (start empty_config) =
      (Panicked "Got error: exit status 1",
       {| Config := empty_config;
          events := [EvTmuxNew "proj" "/work/proj" "" None] |})
  ∧ switchToSession one_session_world "gone" (start empty_config) =
      (Panicked "Got error: exit status 1",
       {| Config := empty_config;
          events := [EvTmuxSwitchClient "gone";
                     EvLog "failed: can't find session: gone"] |}).
Proof.
  assert (Henv : os_Getenv one_session_world "TMUX" ≠ "") by discriminate.
  assert (Hid : "/tmp/x" ≠ "") by discriminate.
  split; [reflexivity |]. split; [exact Hid |]. split; [reflexivity |].
  split; [exact Henv |]. split; [reflexivity |].
  split; [| split; [| split; [| split]]].
  - apply (proj1 (proj1 (backend_failure_handling no_server_world (start empty_config))
                    _ _ eq_refl)).
  - apply (proj1 (proj2 (proj1 (backend_failure_handling no_server_world
                                  (start empty_config)) _ _ eq_refl))
             "/tmp/x" false false false Hid).
  - apply (proj2 (proj2 (proj1 (backend_failure_handling no_server_world
                                  (start empty_config)) _ _ eq_refl))
             false false false).
  - apply (proj1 (proj2 (backend_failure_handling one_session_world (start empty_config)))
             "proj" "/work/proj" "" None "exit status 1" eq_refl).
  - apply (proj2 (proj2 (backend_failure_handling one_session_world (start empty_config)))
             "gone" _ _ Henv eq_refl).
Defined.

(** C2, as stated, fails: [pr /tmp/x] from a shell outside tmux, with no
    tmux server running.  After the failing [list-sessions] the run is not
    aborted; it goes on with no live sessions, creates the session (which
    starts the server) and hands the process over to [tmux attach]. *)
Lemma list_failure_continues :
  tmux_list_sessions no_server_world
    = ("no server running on /tmp/tmux-1000/default", Some "exit status 1")
  ∧ os_Getenv no_server_world "TMUX" = ""
  ∧ main no_server_world "/tmp/x" false false false (start empty_config) =
      (Replaced,
       {| Config := empty_config;
          events := [EvTmuxListSessions;
                     EvLog "tmux list-sessions: exit status 1: no server running on /tmp/tmux-1000/default";
                     EvTmuxNew "x" "/tmp/x" "" None;
                     EvExec "/usr/bin/tmux" ["tmux"; "attach"; "-t"; "x"]] |})
  ∧ aborted (main no_server_world "/tmp/x" false false false
               (start empty_config)).1 = false.
Proof. repeat split. Qed.

(** ** Materialisation *)

(** The collision from the command line: [pr /work/proj] with the live
    session [proj] of another directory asks tmux for a second session
    [proj], which tmux refuses. *)
Example ChangeSession_collision :
  ChangeSession one_session_world collision_live "/work/proj" false
    (start empty_config)
  = (Panicked "Got error: exit status 1",
     {| Config := Touch "proj" "/work/proj" empty_config;
        events := [EvTmuxNew "proj" "/work/proj" "" None] |}).
Proof. reflexivity. Qed.

(** ** The previous-session marker *)

Lemma sample_listing_distinct : NoDup (ts_LastActivity <$> sample_listing).
Proof.
  repeat (apply NoDup_cons_2; [rewrite ?elem_of_cons, elem_of_nil; intros H;
                               repeat destruct H as [H | H]; done |]).
  apply NoDup_nil_2.
Qed.




(** ** Prefixes and aliases *)

Lemma not_dashes (token : string) c rest :
  token = String c rest → c ≠ "-"%char → ∀ n, (1 ≤ n)%nat → token ≠ dashes n.
Proof. intros -> Hc [|n] Hn; [lia |]. simpl. congruence. Qed.

Lemma resolve_live_prefix_last_witness :
  "web" ≠ "."
  ∧ HasPrefix "web" "/" = false
  ∧ Forall (λ s, ts_Name s ≠ "web") sample_listing
  ∧ (∃ s, s ∈ sample_listing ∧ HasPrefix (ts_Name s) "web" = true)
  ∧ ∃ s, last (filter (λ s, HasPrefix (ts_Name s) "web" = true) sample_listing)
         = Some s
         ∧ resolve stable_world sample_listing "web" false (start sample_config)
           = (Returned {| sessionName := ts_Name s; sessionDirPath := ts_Path s;
                          sessionStartCmd := ""; sessionEnv := None |},
              start sample_config).
Proof.
  assert (Hdot : "web" ≠ ".") by discriminate.
  assert (Hdash : ∀ n, (1 ≤ n)%nat → "web" ≠ dashes n)
    by (apply (not_dashes "web" "w" "eb"); [reflexivity | discriminate]).
  assert (Hexact : Forall (λ s, ts_Name s ≠ "web") sample_listing)
    by (repeat constructor; discriminate).
  assert (Hsome : ∃ s, s ∈ sample_listing ∧ HasPrefix (ts_Name s) "web" = true).
  { exists session_A. split; [| reflexivity].
    apply elem_of_cons. right. apply elem_of_cons. by left. }
  split; [exact Hdot |]. split; [reflexivity |].
  split; [exact Hexact |]. split; [exact Hsome |].
  apply (resolve_live_prefix_last stable_world sample_listing "web" false
           (start sample_config) Hdot eq_refl Hdash Hexact Hsome).
Defined.

(** The last match of the listing, not the first. *)
Example resolve_web :
  resolve stable_world sample_listing "web" false (start sample_config)
  = (Returned (set_session session_B no_target), start sample_config).
Proof. reflexivity. Qed.

Lemma resolve_alias_as_name_witness :
  Sessions (Config (start sample_config)) = ([sample_notes] ++ sample_project :: [])%list
  ∧ fs_Name sample_project = "project"
  ∧ "p" ∈ range (fs_Aliases sample_project)
  ∧ Forall (λ s, HasPrefix (ts_Name s) "p" = false) sample_listing
  ∧ resolve stable_world sample_listing "p" false (start sample_config)
    = resolve stable_world sample_listing "project" false (start sample_config)
  ∧ resolve stable_world sample_listing "project" false (start sample_config)
    = (Returned {| sessionName := "project"; sessionDirPath := "/home/u/project";
                   sessionStartCmd := "make watch";
                   sessionEnv := Some {["GOFLAGS" := "-mod=vendor"]} |},
       start sample_config).
Proof.
  assert (Halias : "p" ∈ range (fs_Aliases sample_project))
    by (apply elem_of_cons; by left).
  assert (Hlive : Forall (λ s, HasPrefix (ts_Name s) "p" = false) sample_listing)
    by (repeat constructor).
  assert (Hpre : Forall (λ fs, (fs_Name fs ≠ "p" ∧ "p" ∉ range (fs_Aliases fs))
                               ∧ (fs_Name fs ≠ "project"
                                  ∧ "project" ∉ range (fs_Aliases fs)))
                        [sample_notes]).
  { repeat constructor; try discriminate; apply not_elem_of_nil. }
  split; [reflexivity |]. split; [reflexivity |].
  split; [exact Halias |]. split; [exact Hlive |].
  apply (resolve_alias_as_name stable_world sample_listing false
           (start sample_config) [sample_notes] sample_project []
           eq_refl eq_refl Halias Hlive Hpre).
Defined.

(** * Further properties *)

(** ** The favourites store: what [Touch] keeps *)

Section TouchInvariants.

Implicit Types (fc : FavouritesConfig) (l : list FavouriteSession).

(** The three things [Touch] can do. *)
Lemma Touch_cases name path fc :
  Touch name path fc = fc
  ∨ (find_index name (Sessions fc) = None
     ∧ Touch name path fc =
         {| Sessions := {| fs_Name := name; fs_Path := path; fs_Cmd := "";
                           fs_Aliases := Some []; fs_Env := Some ∅ |}
                        :: Sessions fc;
            changed := true |})
  ∨ (∃ i r, find_index name (Sessions fc) = Some (S i)
            ∧ Sessions fc !! S i = Some r
            ∧ fs_Name r = name
            ∧ Forall (λ fs, fs_Name fs ≠ name) (take (S i) (Sessions fc))
            ∧ Touch name path fc =
                {| Sessions := r :: take (S i) (Sessions fc)
                                 ++ drop (S (S i)) (Sessions fc);
                   changed := true |}).
Proof.
  unfold Touch. destruct (HasPrefix path "/tmp/"); [by left |].
  destruct (find_index name (Sessions fc)) as [[|i]|] eqn:E.
  - by left.
  - right. right.
    destruct (find_index_Some _ _ _ E) as (r & Hr & Hname & Hbefore).
    exists i, r. by rewrite Hr.
  - right. by left.
Qed.

Lemma moved_to_front_perm l i r :
  l !! i = Some r → r :: take i l ++ drop (S i) l ≡ₚ l.
Proof.
  intros Hr. rewrite <- (take_drop_middle _ _ _ Hr) at 3.
  by rewrite Permutation_middle.
Qed.

(** X1: [Touch] keeps the names of the store pairwise distinct. *)
Theorem Touch_unique_names name path fc :
  NoDup (fs_Name <$> Sessions fc) →
  NoDup (fs_Name <$> Sessions (Touch name path fc)).
Proof.
  intros Hnd.
  destruct (Touch_cases name path fc)
    as [-> | [[Hnone ->] | (i & r & Hi & Hr & _ & _ & ->)]]; [done | |].
  - simpl. apply NoDup_cons. split; [| done].
    apply find_index_None in Hnone. rewrite Forall_forall in Hnone.
    intros (fs & Heq & Hin)%list_elem_of_fmap. by apply (Hnone fs Hin).
  - cbn [Sessions]. by rewrite (moved_to_front_perm _ _ _ Hr).
Qed.

(** X2: whatever [Touch] does, the records that are not called [name]
    stay as they are and in their order. *)
Theorem Touch_keeps_others_in_order name path fc :
  filter (λ fs, fs_Name fs ≠ name) (Sessions (Touch name path fc))
  = filter (λ fs, fs_Name fs ≠ name) (Sessions fc).
Proof.
  destruct (Touch_cases name path fc)
    as [-> | [[Hnone ->] | (i & r & Hi & Hr & Hname & _ & ->)]]; [done | |].
  - cbn [Sessions]. by rewrite filter_cons_False by (simpl; tauto).
  - cbn [Sessions]. rewrite <- (take_drop_middle _ _ _ Hr) at 3.
    rewrite filter_cons_False by tauto.
    rewrite !filter_app, filter_cons_False by tauto. done.
Qed.

End TouchInvariants.

Section TouchAndSave.

Variable W : World.

(** X3: a [Touch] that changes the list of records sets the dirty flag, so
    the [Save] that follows writes the new list. *)
Theorem Touch_then_Save_writes name path st bs :
  Sessions (Touch name path (Config st)) ≠ Sessions (Config st) →
  json_MarshalIndent W (Sessions (Touch name path (Config st))) = (bs, None) →
  changed (Touch name path (Config st)) = true
  ∧ events ((modify_Config (Touch name path);; Save W) st).2
    = (events st ++ [EvWriteFile (ConfigPath W) bs (octal 6 4 0)])%list.
Proof.
  intros Hne Hbs.
  assert (Hdirty : changed (Touch name path (Config st)) = true).
  { destruct (Touch_cases name path (Config st))
      as [Heq | [[_ ->] | (i & r & _ & _ & _ & _ & ->)]]; [| done | done].
    by rewrite Heq in Hne. }
  split; [done |].
  unfold mbind, M_bind, modify_Config.
  by rewrite (Save_dirty W {| Config := Touch name path (Config st);
                              events := events st |} bs Hdirty Hbs).
Qed.

End TouchAndSave.

(** ** Reading the listing of tmux *)

Lemma Split_field f sep rest :
  count_char sep f = 0%nat →
  Split (f ++ String sep rest) sep = f :: Split rest sep.
Proof.
  induction f as [|c f IH]; simpl.
  - by rewrite Ascii.eqb_refl.
  - destruct (Ascii.eqb c sep); [done |]. intros H. by rewrite IH.
Qed.

Lemma Split_one_field f sep : count_char sep f = 0%nat → Split f sep = [f].
Proof.
  induction f as [|c f IH]; simpl; [done |].
  destruct (Ascii.eqb c sep); [done |]. intros H. by rewrite IH.
Qed.

Lemma length_Split s sep : length (Split s sep) = S (count_char sep s).
Proof.
  induction s as [|c s IH]; simpl; [done |].
  destruct (Ascii.eqb c sep); simpl; [by rewrite IH |].
  destruct (Split s sep); simpl in *; done.
Qed.

Lemma parse_line_five_fields p0 p1 p2 p3 p4 :
  count_char "009" p0 = 0%nat → count_char "009" p1 = 0%nat →
  count_char "009" p2 = 0%nat → count_char "009" p3 = 0%nat →
  count_char "009" p4 = 0%nat →
  parse_line (p0 ++ TAB ++ p1 ++ TAB ++ p2 ++ TAB ++ p3 ++ TAB ++ p4)
  = Some {| ts_Name := p0;
            ts_Path := p1;
            ts_Attached := negb (streq p2 "0");
            ts_WindowsCount := default 0 (Atoi p3);
            ts_LastActivity := default 0 (time_Unix <$> ParseInt p4) |}.
Proof.
  intros H0 H1 H2 H3 H4. unfold parse_line, TAB.
  change (p0 ++ String "009" "" ++ p1 ++ String "009" "" ++ p2 ++
          String "009" "" ++ p3 ++ String "009" "" ++ p4)
    with (p0 ++ String "009" (p1 ++ String "009" (p2 ++
          String "009" (p3 ++ String "009" p4)))).
  by rewrite !Split_field, (Split_one_field p4) by done.
Qed.

(** X4: a line of the listing is a session exactly when it has four tabs,
    that is five fields: a line with fewer or more is dropped, and so is a
    session whose name or path holds a tab. *)
Theorem parse_line_field_count line :
  is_Some (parse_line line) ↔ count_char "009" line = 4%nat.
Proof.
  unfold parse_line.
  pose proof (length_Split line "009") as Hlen.
  destruct (Split line "009") as [|a [|b [|c [|d [|e [|f l]]]]]];
    simpl in Hlen; split; intros H;
    try (by destruct H); try (by eexists); try lia.
Qed.

Lemma Split_printed lines :
  Forall (λ l, count_char "010" l = 0%nat) lines →
  Split (printed lines) "010" = (lines ++ [""])%list.
Proof.
  induction 1 as [|l lines Hl _ IH]; [done |].
  cbn [printed]. unfold NEWLINE.
  change (l ++ String "010" "" ++ printed lines)
    with (l ++ String "010" (printed lines)).
  by rewrite Split_field, IH.
Qed.

Section Listing.

Variable W : World.

(** X5: when tmux prints its lines, [listSessions] returns the sessions of
    the lines that have five fields, in the order of the lines, and drops
    the other lines and the empty end after the last newline. *)
Theorem listSessions_lines lines st :
  tmux_list_sessions W = (printed lines, None) →
  Forall (λ l, count_char "010" l = 0%nat) lines →
  listSessions W st
  = (Returned (omap parse_line lines),
     {| Config := Config st;
        events := (events st ++ [EvTmuxListSessions])%list |}).
Proof.
  intros Hout Hlines. unfold listSessions. rewrite Hout.
  unfold mbind, M_bind, emit, mret, M_ret. simpl.
  rewrite Split_printed by done.
  rewrite omap_app. simpl. by rewrite app_nil_r.
Qed.

End Listing.

(** ** Resolution: the rules one by one *)

Lemma live_exact_last sessions token s :
  last (filter (λ s, ts_Name s = token) sessions) = Some s →
  live_exact sessions token no_target = set_session s no_target.
Proof.
  intros H. unfold live_exact. by rewrite sessionsByName_lookup, H.
Qed.

Lemma live_rules_unmatched sessions token :
  no_live_match sessions token →
  live_prefix sessions token (live_exact sessions token no_target) = no_target.
Proof.
  intros Hlive.
  assert (live_exact sessions token no_target = no_target) as ->.
  { unfold live_exact.
    rewrite (proj2 (sessionsByName_None sessions token)); [done |].
    eapply Forall_impl; [exact Hlive |]. intros s Hs Heq. cbv beta in *.
    by rewrite Heq, HasPrefix_refl in Hs. }
  unfold live_prefix. simpl. rewrite live_prefix_loop_last.
  destruct (last _) as [s|] eqn:Hlast; [| done].
  apply last_Some_elem_of, list_elem_of_filter in Hlast as [Hs Hin].
  unfold no_live_match in Hlive. rewrite Forall_forall in Hlive.
  by rewrite (Hlive s Hin) in Hs.
Qed.

Lemma favourite_exact_loop_unmatched token favs t :
  sessionName t = "" →
  no_favourite_exact favs token →
  favourite_exact_loop token favs t = t.
Proof.
  intros Ht. induction 1 as [|fs favs [Hname Halias] _ IH]; simpl; [done |].
  apply streq_false in Hname. rewrite Hname.
  destruct (existsb _ _) eqn:E; [by apply existsb_streq in E |].
  by rewrite Ht.
Qed.

Lemma favourite_prefix_loop_first token pre R post t :
  Forall (λ fs, HasPrefix (fs_Name fs) token = false) pre →
  HasPrefix (fs_Name R) token = true →
  favourite_prefix_loop token (pre ++ R :: post) t = set_favourite R.
Proof.
  intros Hpre HR. induction Hpre as [|fs pre Hfs _ IH]; simpl.
  - by rewrite HR.
  - by rewrite Hfs.
Qed.

Lemma favourite_prefix_loop_unmatched token favs t :
  Forall (λ fs, HasPrefix (fs_Name fs) token = false) favs →
  favourite_prefix_loop token favs t = t.
Proof. induction 1 as [|fs favs Hfs _ IH]; simpl; [done |]. by rewrite Hfs. Qed.

Lemma no_favourite_match_exact favs token :
  no_favourite_match favs token → no_favourite_exact favs token.
Proof.
  intros H. eapply Forall_impl; [exact H |].
  intros fs [Hpre Halias]. split; [| done].
  intros Heq. by rewrite Heq, HasPrefix_refl in Hpre.
Qed.

Lemma favourite_rules_unmatched favs token :
  no_favourite_match favs token →
  favourite_prefix favs token (favourite_exact favs token no_target) = no_target.
Proof.
  intros H. unfold favourite_exact, favourite_prefix. simpl.
  rewrite favourite_exact_loop_unmatched
    by (done || by apply no_favourite_match_exact).
  simpl. apply favourite_prefix_loop_unmatched.
  eapply Forall_impl; [exact H |]. by intros fs [? _].
Qed.

Section ResolveRules.

Variable W : World.

Lemma resolve_plain sessions token allow st :
  plain_token token →
  resolve W sessions token allow st
  = resolve_home W token
      (favourite_prefix (Sessions (Config st)) token
         (favourite_exact (Sessions (Config st)) token
            (live_prefix sessions token
               (live_exact sessions token no_target)))) st.
Proof. intros (? & ? & ?). by apply resolve_by_rules. Qed.

Lemma resolve_live_exact_target sessions token allow st s :
  plain_token token →
  token ≠ "" →
  last (filter (λ s, ts_Name s = token) sessions) = Some s →
  resolve W sessions token allow st
  = (Returned {| sessionName := token; sessionDirPath := ts_Path s;
                 sessionStartCmd := ""; sessionEnv := None |}, st).
Proof.
  intros Hplain Hne Hlast.
  assert (ts_Name s = token) as Hname.
  { by apply last_Some_elem_of, list_elem_of_filter in Hlast as [? _]. }
  rewrite resolve_plain, (live_exact_last _ _ _ Hlast) by done.
  assert (sessionName (set_session s no_target) ≠ "") as Hnamed
    by (simpl; congruence).
  unfold live_prefix, favourite_exact, favourite_prefix.
  rewrite !(proj2 (streq_false _ _) Hnamed).
  rewrite resolve_home_named by done.
  unfold set_session. simpl. by rewrite Hname.
Qed.

(** X6: a token that is the name of a live session resolves to that
    session (the last of that name in the listing), whatever the other
    live sessions, the favourites and the home directory hold. *)
Theorem resolve_live_exact sessions token allow st s :
  plain_token token →
  token ≠ "" →
  last (filter (λ s, ts_Name s = token) sessions) = Some s →
  resolve W sessions token allow st
  = (Returned {| sessionName := token; sessionDirPath := ts_Path s;
                 sessionStartCmd := ""; sessionEnv := None |}, st).
Proof. apply resolve_live_exact_target. Qed.

(** X7: when no live session and no name or alias of a favourite takes the
    token, it resolves to the first favourite, in the order of the store,
    whose name starts with the token, with its directory, command and
    environment; aliases are not matched by prefix. *)
Theorem resolve_favourite_prefix_first sessions token allow st
    (pre : list FavouriteSession) (R : FavouriteSession)
    (post : list FavouriteSession) :
  plain_token token →
  no_live_match sessions token →
  no_favourite_exact (Sessions (Config st)) token →
  Sessions (Config st) = (pre ++ R :: post)%list →
  Forall (λ fs, HasPrefix (fs_Name fs) token = false) pre →
  HasPrefix (fs_Name R) token = true →
  fs_Name R ≠ "" →
  resolve W sessions token allow st
  = (Returned {| sessionName := fs_Name R; sessionDirPath := fs_Path R;
                 sessionStartCmd := fs_Cmd R; sessionEnv := fs_Env R |}, st).
Proof.
  intros Hplain Hlive Hexact Hfavs Hpre HR Hname.
  rewrite resolve_plain, live_rules_unmatched by done.
  unfold favourite_exact, favourite_prefix. simpl.
  rewrite favourite_exact_loop_unmatched by done. simpl.
  rewrite Hfavs, (favourite_prefix_loop_first token pre R post) by done.
  by apply resolve_home_named.
Qed.

Lemma home_prefix_loop_first token pre e post t :
  Forall (λ e', HasPrefix e' token = false
                ∨ isDir W (filepath_Join W (Home W) e') = false) pre →
  HasPrefix e token = true →
  isDir W (filepath_Join W (Home W) e) = true →
  home_prefix_loop W token (pre ++ e :: post) t
  = {| sessionName := filepath_Base W (filepath_Join W (Home W) e);
       sessionDirPath := filepath_Join W (Home W) e;
       sessionStartCmd := sessionStartCmd t; sessionEnv := sessionEnv t |}.
Proof.
  intros Hpre He Hdir. induction Hpre as [|e' pre He' _ IH]; simpl.
  - by rewrite He, Hdir.
  - destruct He' as [-> | He']; [done |].
    rewrite He'. by destruct (HasPrefix e' token).
Qed.

Lemma home_prefix_loop_unmatched token entries t :
  Forall (λ e', HasPrefix e' token = false
                ∨ isDir W (filepath_Join W (Home W) e') = false) entries →
  home_prefix_loop W token entries t = t.
Proof.
  induction 1 as [|e' pre He' _ IH]; simpl; [done |].
  destruct He' as [-> | He']; [done |].
  rewrite He'. by destruct (HasPrefix e' token).
Qed.

Lemma resolve_unmatched sessions token allow st :
  plain_token token →
  no_live_match sessions token →
  no_favourite_match (Sessions (Config st)) token →
  resolve W sessions token allow st = resolve_home W token no_target st.
Proof.
  intros Hplain Hlive Hfav.
  by rewrite resolve_plain, live_rules_unmatched, favourite_rules_unmatched.
Qed.

(** X8: a token that neither the live sessions nor the favourites take,
    and that names a directory of the home directory, resolves to that
    directory, with the name that [filepath.Base] gives it and no command
    or environment. *)
Theorem resolve_home_directory sessions token allow st :
  plain_token token →
  no_live_match sessions token →
  no_favourite_match (Sessions (Config st)) token →
  isDir W (filepath_Join W (Home W) token) = true →
  filepath_Base W (filepath_Join W (Home W) token) ≠ "" →
  resolve W sessions token allow st
  = (Returned {| sessionName := filepath_Base W (filepath_Join W (Home W) token);
                 sessionDirPath := filepath_Join W (Home W) token;
                 sessionStartCmd := ""; sessionEnv := None |}, st).
Proof.
  intros Hplain Hlive Hfav Hdir Hbase.
  rewrite resolve_unmatched by done.
  apply streq_false in Hbase.
  unfold resolve_home, home_prefix, home_exact. simpl. rewrite Hdir. simpl.
  unfold mbind, M_bind, mret, M_ret. rewrite Hbase. simpl. by rewrite Hbase.
Qed.

(** X9: otherwise it resolves to the first entry of the home directory, in
    the order [os.ReadDir] lists them, whose name starts with the token and
    which is a directory; entries that are not directories are passed
    over. *)
Theorem resolve_home_prefix_first sessions token allow st pre e post :
  plain_token token →
  no_live_match sessions token →
  no_favourite_match (Sessions (Config st)) token →
  isDir W (filepath_Join W (Home W) token) = false →
  os_ReadDir W (Home W) = ((pre ++ e :: post)%list, None) →
  Forall (λ e', HasPrefix e' token = false
                ∨ isDir W (filepath_Join W (Home W) e') = false) pre →
  HasPrefix e token = true →
  isDir W (filepath_Join W (Home W) e) = true →
  filepath_Base W (filepath_Join W (Home W) e) ≠ "" →
  resolve W sessions token allow st
  = (Returned {| sessionName := filepath_Base W (filepath_Join W (Home W) e);
                 sessionDirPath := filepath_Join W (Home W) e;
                 sessionStartCmd := ""; sessionEnv := None |}, st).
Proof.
  intros Hplain Hlive Hfav Hdir Hread Hpre He Hedir Hbase.
  rewrite resolve_unmatched by done.
  apply streq_false in Hbase.
  unfold resolve_home, home_prefix, home_exact. simpl. rewrite Hdir, Hread.
  unfold mbind, M_bind, mret, M_ret. simpl.
  rewrite (home_prefix_loop_first token pre e post) by done.
  simpl. by rewrite Hbase.
Qed.

(** X10: a token that nothing takes (no live session, no favourite, no
    directory of the home directory) ends the run in [log.Fatalf] with the
    message that names it, and nothing has been done; an error of
    [os.ReadDir] ends it in a panic instead. *)
Theorem resolve_no_match sessions token allow st entries err :
  plain_token token →
  no_live_match sessions token →
  no_favourite_match (Sessions (Config st)) token →
  isDir W (filepath_Join W (Home W) token) = false →
  os_ReadDir W (Home W) = (entries, err) →
  Forall (λ e', HasPrefix e' token = false
                ∨ isDir W (filepath_Join W (Home W) e') = false) entries →
  resolve W sessions token allow st
  = (match err with
     | Some e => Panicked ("Got error: " ++ e)
     | None => Fatal ("directory ~/" ++ token ++ "* does not exist")
     end, st).
Proof.
  intros Hplain Hlive Hfav Hdir Hread Hnone.
  rewrite resolve_unmatched by done.
  unfold resolve_home, home_prefix, home_exact. simpl. rewrite Hdir, Hread.
  unfold mbind, M_bind, mret, M_ret.
  destruct err as [e|]; simpl; [done |].
  by rewrite home_prefix_loop_unmatched.
Qed.

End ResolveRules.

(** ** Resolution: paths, and what resolution does to the surroundings *)

Lemma absolute_not_here id : HasPrefix id "/" = true → id ≠ ".".
Proof. by intros H ->. Qed.

#[local] Arguments HasPrefix : simpl never.

Lemma bind_keeps_state {A B} (m : M A) (f : A → M B) st :
  (∀ a s, (f a s).2 = s) → ((m ≫= f) st).2 = (m st).2.
Proof.
  intros Hf. unfold mbind, M_bind. destruct (m st) as [[a | | |] st']; simpl; auto.
Qed.

Section ResolvePaths.

Variable W : World.

(** X11: an absolute path that is a directory is taken as it is; one that
    is not, below an existing directory, is created with mode 0777 when
    [-c] is given or the path is below [/tmp/], and a failure to create it
    is a panic; without [-c] and outside [/tmp/], or below no directory,
    the run ends in [log.Fatalf] and nothing has been done. *)
Theorem resolve_absolute_path sessions id allow st :
  HasPrefix id "/" = true →
  filepath_Base W id ≠ "" →
  (isDir W id = true →
     resolve W sessions id allow st
     = (Returned {| sessionName := filepath_Base W id; sessionDirPath := id;
                    sessionStartCmd := ""; sessionEnv := None |}, st))
  ∧ (isDir W id = false → isDir W (filepath_Dir W id) = true →
     allow || HasPrefix id "/tmp/" = true →
     resolve W sessions id allow st
     = (match os_Mkdir W id (octal 7 7 7) with
        | None => Returned {| sessionName := filepath_Base W id;
                              sessionDirPath := id;
                              sessionStartCmd := ""; sessionEnv := None |}
        | Some e => Panicked ("Got error: " ++ e)
        end,
        {| Config := Config st;
           events := (events st ++ [EvMkdir id (octal 7 7 7)])%list |}))
  ∧ (isDir W id = false → isDir W (filepath_Dir W id) = true →
     allow = false → HasPrefix id "/tmp/" = false →
     resolve W sessions id allow st
     = (Fatal ("cannot switch to " ++ id ++
          " (directory does not exist): use -c flag to create a new directory"),
        st))
  ∧ (isDir W id = false → isDir W (filepath_Dir W id) = false →
     resolve W sessions id allow st
     = (Fatal ("cannot switch to " ++ id ++
          ": looks like a dir but does not exist and cannot be created"), st)).
Proof.
  intros Habs Hbase.
  pose proof (absolute_not_here _ Habs) as Hdot. apply streq_false in Hdot.
  assert (∀ s, resolve_home W id
                 {| sessionName := filepath_Base W id; sessionDirPath := id;
                    sessionStartCmd := ""; sessionEnv := None |} s
               = (Returned {| sessionName := filepath_Base W id;
                              sessionDirPath := id;
                              sessionStartCmd := ""; sessionEnv := None |}, s))
    as Hhome by (intros s; by apply resolve_home_named).
  assert (∀ s, resolve W sessions id allow s
               = (resolve_absolute W id allow ≫= resolve_home W id) s) as Hres.
  { intros s. unfold resolve. rewrite Hdot.
    unfold mbind at 1. unfold M_bind at 1. unfold mret at 1. unfold M_ret at 1.
    by rewrite Habs. }
  repeat split.
  - intros Hdir. rewrite Hres. unfold resolve_absolute. rewrite Hdir. simpl.
    unfold mbind, M_bind, mret, M_ret. by rewrite Hhome.
  - intros Hdir Hparent Hallow. rewrite Hres. unfold resolve_absolute.
    rewrite Hdir, Hparent, Hallow. simpl.
    unfold mbind, M_bind, mret, M_ret, emit. simpl.
    destruct (os_Mkdir W id os_ModePerm) as [e|] eqn:E;
      unfold os_ModePerm in E; rewrite E; simpl; [done |].
    by rewrite Hhome.
  - intros Hdir Hparent -> Htmp. rewrite Hres. unfold resolve_absolute.
    by rewrite Hdir, Hparent, Htmp.
  - intros Hdir Hparent. rewrite Hres. unfold resolve_absolute.
    by rewrite Hdir, Hparent.
Qed.

(** X12: the token ["."] resolves as the absolute path of the current
    directory does; an error of [os.Getwd] is a panic. *)
Theorem resolve_here sessions allow st cwd err :
  os_Getwd W = (cwd, err) →
  (∀ e, err = Some e →
     resolve W sessions "." allow st = (Panicked ("Got error: " ++ e), st))
  ∧ (err = None → cwd ≠ "." →
     resolve W sessions "." allow st = resolve W sessions cwd allow st).
Proof.
  intros Hwd. split.
  - intros e ->. unfold resolve. simpl. rewrite Hwd. done.
  - intros -> Hne. apply streq_false in Hne.
    unfold resolve. rewrite Hne. simpl. rewrite Hwd. done.
Qed.

Lemma resolve_home_state id t st : (resolve_home W id t st).2 = st.
Proof.
  unfold resolve_home, home_prefix.
  destruct (streq (sessionName (home_exact W id t)) "") eqn:E.
  - destruct (os_ReadDir W (Home W)) as [entries [e|]];
      unfold mbind, M_bind, mret, M_ret; simpl; [done |].
    by destruct (streq (sessionName (home_prefix_loop W id entries _)) "").
  - unfold mbind, M_bind, mret, M_ret. by rewrite E.
Qed.

Lemma resolve_previous_state sessions n st :
  (resolve_previous W sessions n st).2 = st.
Proof.
  unfold resolve_previous. destruct (_ <? 2); [done |].
  by destruct (_ !! _).
Qed.

Lemma resolve_absolute_effects id allow st :
  Config (resolve_absolute W id allow st).2 = Config st
  ∧ (events (resolve_absolute W id allow st).2 = events st
     ∨ events (resolve_absolute W id allow st).2
         = (events st ++ [EvMkdir id (octal 7 7 7)])%list
       ∧ isDir W id = false
       ∧ (allow = true ∨ HasPrefix id "/tmp/" = true)).
Proof.
  unfold resolve_absolute.
  destruct (isDir W id) eqn:Hdir; simpl; [by auto |].
  destruct (isDir W (filepath_Dir W id)); [| by auto].
  destruct (allow || HasPrefix id "/tmp/") eqn:Hallow; [| by auto].
  unfold mbind, M_bind, mret, M_ret, emit. simpl.
  apply orb_true_iff in Hallow.
  destruct (os_Mkdir W id os_ModePerm); simpl; by auto.
Qed.

Lemma resolve_effects sessions id allow st :
  Config (resolve W sessions id allow st).2 = Config st
  ∧ (events (resolve W sessions id allow st).2 = events st
     ∨ ∃ p, events (resolve W sessions id allow st).2
              = (events st ++ [EvMkdir p (octal 7 7 7)])%list
            ∧ HasPrefix p "/" = true
            ∧ isDir W p = false
            ∧ (allow = true ∨ HasPrefix p "/tmp/" = true)).
Proof.
  unfold resolve.
  assert (∀ x s,
    Config (((if HasPrefix x "/" then resolve_absolute W x allow
             else let n := countRepeatedChars x "-" in
               if 0 <? n then resolve_previous W sessions n
               else fc ← get_Config;
                    mret (favourite_prefix (Sessions fc) x
                            (favourite_exact (Sessions fc) x
                               (live_prefix sessions x
                                  (live_exact sessions x no_target)))))
            ≫= resolve_home W x) s).2 = Config s
    ∧ (events (((if HasPrefix x "/" then resolve_absolute W x allow
             else let n := countRepeatedChars x "-" in
               if 0 <? n then resolve_previous W sessions n
               else fc ← get_Config;
                    mret (favourite_prefix (Sessions fc) x
                            (favourite_exact (Sessions fc) x
                               (live_prefix sessions x
                                  (live_exact sessions x no_target)))))
            ≫= resolve_home W x) s).2 = events s
       ∨ ∃ p, events (((if HasPrefix x "/" then resolve_absolute W x allow
             else let n := countRepeatedChars x "-" in
               if 0 <? n then resolve_previous W sessions n
               else fc ← get_Config;
                    mret (favourite_prefix (Sessions fc) x
                            (favourite_exact (Sessions fc) x
                               (live_prefix sessions x
                                  (live_exact sessions x no_target)))))
            ≫= resolve_home W x) s).2
                = (events s ++ [EvMkdir p (octal 7 7 7)])%list
              ∧ HasPrefix p "/" = true ∧ isDir W p = false
              ∧ (allow = true ∨ HasPrefix p "/tmp/" = true))) as Hrest.
  { intros x s. rewrite bind_keeps_state by apply resolve_home_state.
    destruct (HasPrefix x "/") eqn:Habs.
    - destruct (resolve_absolute_effects x allow s) as [Hc [He | (He & ? & ?)]];
        split; auto. right. by exists x.
    - cbv zeta. destruct (0 <? _).
      + rewrite resolve_previous_state. auto.
      + unfold mbind, M_bind, get_Config, mret, M_ret. simpl. auto. }
  destruct (streq id ".").
  - destruct (os_Getwd W) as [x [e|]].
    + unfold mbind, M_bind, mret, M_ret. simpl. auto.
    + unfold mbind at 1. unfold M_bind at 1. simpl. apply Hrest.
  - unfold mbind at 1. unfold M_bind at 1. unfold mret at 1. unfold M_ret at 1.
    apply Hrest.
Qed.

(** X13: resolution never changes the favourites, and all it ever does to
    the surroundings is to create one directory: an absolute path that did
    not exist, and only when [-c] was given or the path is below
    [/tmp/]. *)
Theorem resolve_keeps_history sessions id allow st :
  Config (resolve W sessions id allow st).2 = Config st
  ∧ (events (resolve W sessions id allow st).2 = events st
     ∨ ∃ p, events (resolve W sessions id allow st).2
              = (events st ++ [EvMkdir p (octal 7 7 7)])%list
            ∧ HasPrefix p "/" = true
            ∧ isDir W p = false
            ∧ (allow = true ∨ HasPrefix p "/tmp/" = true)).
Proof. apply resolve_effects. Qed.

End ResolvePaths.

(** ** Materialisation and the whole run *)

Lemma written_files_app evs evs' :
  written_files (evs ++ evs') = (written_files evs ++ written_files evs')%list.
Proof. apply omap_app. Qed.

Section Runs.

Variable W : World.

Lemma sessionsByName_name sessions k s :
  sessionsByName sessions !! k = Some s → ts_Name s = k.
Proof.
  rewrite sessionsByName_lookup. intros H.
  by apply last_Some_elem_of, list_elem_of_filter in H as [? _].
Qed.

Lemma switchToSession_effects name st :
  Config (switchToSession W name st).2 = Config st
  ∧ written_files (events (switchToSession W name st).2)
    = written_files (events st)
  ∧ (os_Getenv W "TMUX" = "" → returned (switchToSession W name st).1 = false).
Proof.
  unfold switchToSession.
  destruct (streq (os_Getenv W "TMUX") "") eqn:Henv; simpl.
  - destruct (exec_LookPath W "tmux") as [p [e|]];
      unfold mbind, M_bind, emit; simpl; [done |].
    destruct (syscall_Exec W p _); simpl;
      rewrite written_files_app; simpl; by rewrite app_nil_r.
  - apply streq_false in Henv.
    destruct (tmux_switch_client W name) as [out [e|]];
      unfold mbind, M_bind, log_Printf, emit; simpl;
      rewrite ?written_files_app; simpl; by rewrite ?app_nil_r.
Qed.

(** What the loop over the candidates can do: it keeps the favourites or
    touches them once, writes no file, and outside tmux it does not come
    back. *)
Lemma materialize_loop_effects byName t suffixes st :
  written_files (events (materialize_loop W byName t suffixes st).2)
  = written_files (events st)
  ∧ (os_Getenv W "TMUX" = "" →
     returned (materialize_loop W byName t suffixes st).1 = false)
  ∧ (HasPrefix (sessionDirPath t) "/tmp/" = true →
     Config (materialize_loop W byName t suffixes st).2 = Config st).
Proof.
  induction suffixes as [|suffix suffixes IH]; [done |].
  cbn [materialize_loop].
  destruct (byName !! (sessionName t ++ suffix)) as [s|].
  - destruct (streq (ts_Path s) (sessionDirPath t)) eqn:Hpath; [| exact IH].
    apply streq_true in Hpath.
    unfold mbind, M_bind, modify_Config.
    match goal with
    | |- context [switchToSession W ?n ?s0] =>
        destruct (switchToSession_effects n s0) as (Hc & Hw & Hr)
    end.
    split; [exact Hw |]. split; [exact Hr |].
    intros Htmp. rewrite Hc. simpl. unfold Touch. by rewrite Hpath, Htmp.
  - unfold mbind, M_bind, modify_Config, createSession, emit. simpl.
    destruct (tmux_new W _ _ _ _); simpl.
    + rewrite written_files_app. simpl. rewrite app_nil_r.
      split; [done |]. split; [done |].
      intros Htmp. unfold Touch. by rewrite Htmp.
    + match goal with
      | |- context [switchToSession W ?n ?s0] =>
          destruct (switchToSession_effects n s0) as (Hc & Hw & Hr)
      end.
      split; [| split; [exact Hr |]].
      * rewrite Hw. simpl. rewrite written_files_app. simpl.
        by rewrite app_nil_r.
      * intros Htmp. rewrite Hc. simpl. unfold Touch. by rewrite Htmp.
Qed.

(** X14: when the first candidate name that is not taken by a session of
    another directory belongs to a live session of the target directory,
    the run touches the history under that session's name, which is the
    candidate with its suffix, switches to it, and asks tmux for no new
    session. *)
Theorem materialize_existing_session sessions t st
    (pre : list string) (suffix : string) (post : list string) s :
  SUFFIXES = (pre ++ suffix :: post)%list →
  Forall (occupied (sessionsByName sessions) t) pre →
  sessionsByName sessions !! (sessionName t ++ suffix) = Some s →
  ts_Path s = sessionDirPath t →
  ts_Name s = sessionName t ++ suffix
  ∧ materialize W sessions t st
    = (modify_Config (Touch (ts_Name s) (ts_Path s));;
       switchToSession W (ts_Name s)) st
  ∧ created_names (events (materialize W sessions t st).2)
    = created_names (events st).
Proof.
  intros Hsuf Hpre Hs Hpath.
  split; [by apply (sessionsByName_name sessions) |].
  assert (materialize W sessions t st
          = (modify_Config (Touch (ts_Name s) (ts_Path s));;
             switchToSession W (ts_Name s)) st) as Heq.
  { unfold materialize. rewrite Hsuf. clear Hsuf.
    induction Hpre as [|x pre Hx _ IH].
    - simpl. rewrite Hs. apply streq_true in Hpath. by rewrite Hpath.
    - simpl. destruct Hx as (s' & -> & Hne).
      apply streq_false in Hne. by rewrite Hne. }
  split; [done |]. rewrite Heq.
  unfold mbind, M_bind, modify_Config.
  match goal with
  | |- context [switchToSession W ?n ?s0] =>
      by destruct (switchToSession_creates_nothing W n s0) as [-> _]
  end.
Qed.

Lemma ChangeSession_effects sessions id allow st :
  written_files (events (ChangeSession W sessions id allow st).2)
  = written_files (events st)
  ∧ (os_Getenv W "TMUX" = "" →
     returned (ChangeSession W sessions id allow st).1 = false).
Proof.
  unfold ChangeSession, materialize.
  assert (written_files (events (resolve W sessions id allow st).2)
          = written_files (events st)) as Hw.
  { destruct (resolve_effects W sessions id allow st)
      as [_ [-> | (p & -> & _)]]; [done |].
    rewrite written_files_app. simpl. by rewrite app_nil_r. }
  unfold mbind, M_bind.
  destruct (resolve W sessions id allow st) as [[t | | |] st1];
    cbn [fst snd] in *; try done.
  destruct (materialize_loop_effects (sessionsByName sessions) t SUFFIXES st1)
    as (Hw' & Hr & _).
  by rewrite Hw', Hw.
Qed.

Lemma ChangeSession_ephemeral_config sessions id allow st :
  HasPrefix id "/tmp/" = true →
  filepath_Base W id ≠ "" →
  Config (ChangeSession W sessions id allow st).2 = Config st.
Proof.
  intros Htmp Hbase.
  assert (HasPrefix id "/" = true) as Habs.
  { destruct id as [|c id]; [done |].
    change (HasPrefix (String c id) "/tmp/")
      with (Ascii.eqb "/" c && HasPrefix id "tmp/") in Htmp.
    change (HasPrefix (String c id) "/") with (Ascii.eqb "/" c && true).
    by destruct (Ascii.eqb "/" c). }
  pose proof (absolute_not_here _ Habs) as Hdot. apply streq_false in Hdot.
  unfold ChangeSession.
  assert (∀ s, resolve W sessions id allow s
               = (resolve_absolute W id allow ≫= resolve_home W id) s) as Hres.
  { intros s. unfold resolve. rewrite Hdot.
    unfold mbind at 1. unfold M_bind at 1. unfold mret at 1. unfold M_ret at 1.
    by rewrite Habs. }
  pose proof (proj1 (resolve_effects W sessions id allow st)) as Hcfg.
  unfold mbind at 1. unfold M_bind at 1.
  destruct (resolve W sessions id allow st) as [[t | | |] st1] eqn:E;
    cbn [fst snd] in *; try done.
  assert (sessionDirPath t = id) as Hdir.
  { rewrite Hres in E. unfold mbind, M_bind in E.
    unfold resolve_absolute in E.
    assert (∀ s, resolve_home W id
                   {| sessionName := filepath_Base W id; sessionDirPath := id;
                      sessionStartCmd := ""; sessionEnv := None |} s
                 = (Returned {| sessionName := filepath_Base W id;
                                sessionDirPath := id;
                                sessionStartCmd := ""; sessionEnv := None |}, s))
      as Hhome by (intros s; by apply resolve_home_named).
    destruct (isDir W id); simpl in E.
    - unfold mbind, M_bind, mret, M_ret in E. rewrite Hhome in E.
      by injection E as <- _.
    - destruct (isDir W (filepath_Dir W id)); [| done].
      destruct (allow || HasPrefix id "/tmp/"); [| done].
      unfold mbind, M_bind, mret, M_ret, emit in E. simpl in E.
      destruct (os_Mkdir W id os_ModePerm); simpl in E; [done |].
      rewrite Hhome in E. by injection E as <- _. }
  unfold materialize.
  destruct (materialize_loop_effects (sessionsByName sessions) t SUFFIXES st1)
    as (_ & _ & Hc).
  rewrite Hc by (by rewrite Hdir). done.
Qed.

(** X16: a run for an absolute path below [/tmp/] leaves the favourites as
    they are, whether the session exists, is created, or the run fails:
    sessions below the ephemeral root are never put into the history. *)
Theorem ChangeSession_ephemeral sessions id allow st :
  HasPrefix id "/tmp/" = true →
  filepath_Base W id ≠ "" →
  Config (ChangeSession W sessions id allow st).2 = Config st.
Proof. apply ChangeSession_ephemeral_config. Qed.

Lemma listSessions_effects st :
  ∃ ss st', listSessions W st = (Returned ss, st')
            ∧ Config st' = Config st
            ∧ written_files (events st') = written_files (events st).
Proof.
  unfold listSessions.
  destruct (tmux_list_sessions W) as [out [e|]];
    unfold mbind, M_bind, log_Printf, emit, mret, M_ret; simpl;
    eexists _, _; (split; [reflexivity |]); simpl;
    rewrite ?written_files_app; simpl; by rewrite ?app_nil_r.
Qed.

Lemma Save_effects st :
  written_files (events (Save W st).2) = written_files (events st)
  ∨ written_files (events (Save W st).2)
    = (written_files (events st) ++ [ConfigPath W])%list.
Proof.
  unfold Save, mbind, M_bind, get_Config.
  destruct (changed (Config st)); simpl; [| by left].
  destruct (json_MarshalIndent W _) as [bs [e|]]; simpl; [by left |].
  right. unfold emit. simpl.
  destruct (os_WriteFile W _ _ _); simpl; by rewrite written_files_app.
Qed.

Lemma getTodoContents_state dir st : (getTodoContents W dir st).2 = st.
Proof.
  unfold getTodoContents. destruct (isFile W _); [| done].
  destruct (os_ReadFile W _) as [bs [e|]]; done.
Qed.

Lemma table_rows_state allColumns l st : (table_rows W allColumns l st).2 = st.
Proof.
  revert st. induction l as [|s l IH]; intros st; [done |].
  cbn [table_rows]. unfold mbind at 1. unfold M_bind at 1.
  destruct allColumns.
  - unfold mbind at 1. unfold M_bind at 1.
    pose proof (getTodoContents_state (ts_Path s) st) as Htodo.
    destruct (getTodoContents W (ts_Path s) st) as [[todo | | |] st1];
      cbn [fst snd] in *; subst st1; try done.
    unfold mret at 1. unfold M_ret at 1.
    unfold mbind, M_bind. specialize (IH st).
    by destruct (table_rows W true l st) as [[rows | | |] st2].
  - unfold mret at 1. unfold M_ret at 1.
    unfold mbind, M_bind. specialize (IH st).
    by destruct (table_rows W false l st) as [[rows | | |] st2].
Qed.

Lemma printSessions_effects ss wide all st :
  Config (printSessions W ss wide all st).2 = Config st
  ∧ written_files (events (printSessions W ss wide all st).2)
    = written_files (events st).
Proof.
  unfold printSessions, mbind, M_bind, get_Config.
  pose proof (table_rows_state wide
                (printSessions_allSessions ss (Sessions (Config st)) all) st) as H.
  destruct (table_rows W wide _ st) as [[rows | | |] st1];
    cbn [fst snd] in *; subst st1; try done.
  unfold emit. cbn [fst snd Config events].
  by rewrite written_files_app, app_nil_r.
Qed.

(** X17: a run outside tmux for a target token never comes back from
    [ChangeSession]: it ends in an error or hands the process over to
    [tmux attach]; so [Save] is not reached and the history is not written,
    whatever the run changed in it. *)
Theorem main_outside_tmux_never_saves id allow wide all st :
  id ≠ "" →
  os_Getenv W "TMUX" = "" →
  returned (main W id allow wide all st).1 = false
  ∧ written_files (events (main W id allow wide all st).2)
    = written_files (events st).
Proof.
  intros Hid Henv. apply streq_false in Hid.
  destruct (listSessions_effects st) as (ss & st1 & Hls & _ & Hw1).
  assert (main W id allow wide all st
          = (ChangeSession W ss id allow;; Save W) st1) as ->
    by (unfold main; unfold mbind at 1; unfold M_bind at 1;
        by rewrite Hls, Hid).
  destruct (ChangeSession_effects ss id allow st1) as [Hw2 Hr].
  specialize (Hr Henv).
  unfold mbind, M_bind.
  destruct (ChangeSession W ss id allow st1) as [[[] | | |] st2];
    cbn [fst snd] in *; try done; by rewrite Hw2, Hw1.
Qed.

(** X18: a run writes at most one file, the config document, and only as
    its last step. *)
Theorem main_writes_at_most_once id allow wide all st :
  written_files (events (main W id allow wide all st).2)
  = written_files (events st)
  ∨ written_files (events (main W id allow wide all st).2)
    = (written_files (events st) ++ [ConfigPath W])%list.
Proof.
  destruct (listSessions_effects st) as (ss & st1 & Hls & _ & Hw1).
  destruct (streq id "") eqn:Hid.
  { left.
    assert (main W id allow wide all st = printSessions W ss wide all st1) as ->
      by (unfold main; unfold mbind at 1; unfold M_bind at 1;
          by rewrite Hls, Hid).
    by rewrite (proj2 (printSessions_effects ss wide all st1)). }
  assert (main W id allow wide all st
          = (ChangeSession W ss id allow;; Save W) st1) as ->
    by (unfold main; unfold mbind at 1; unfold M_bind at 1;
        by rewrite Hls, Hid).
  destruct (ChangeSession_effects ss id allow st1) as [Hw2 _].
  unfold mbind, M_bind.
  destruct (ChangeSession W ss id allow st1) as [[[] | | |] st2];
    cbn [fst snd] in *; try (left; by rewrite Hw2, Hw1).
  destruct (Save_effects st2) as [-> | ->]; rewrite Hw2, Hw1; auto.
Qed.

End Runs.

(** X15: the loop over the candidate names ends in [log.Fatalf] exactly
    when all ten names are taken by sessions of other directories, and then
    nothing has been done. *)
Theorem materialize_fatal_iff_exhausted (W : World) sessions t st :
  (is_fatal (materialize W sessions t st).1 = true
   ↔ Forall (occupied (sessionsByName sessions) t) SUFFIXES)
  ∧ (Forall (occupied (sessionsByName sessions) t) SUFFIXES →
     (materialize W sessions t st).2 = st).
Proof.
  unfold materialize. generalize SUFFIXES. intros l.
  assert (∀ name s0, is_fatal (switchToSession W name s0).1 = false) as Hsw.
  { intros name s0. unfold switchToSession.
    destruct (negb _).
    - by destruct (tmux_switch_client W name) as [out [e|]].
    - destruct (exec_LookPath W "tmux") as [p [e|]]; [done |].
      unfold mbind, M_bind, emit. simpl. by destruct (syscall_Exec W p _). }
  induction l as [|suffix l [IH1 IH2]]; [by split |].
  cbn [materialize_loop].
  destruct (sessionsByName sessions !! (sessionName t ++ suffix)) as [s|] eqn:Hs.
  - destruct (streq (ts_Path s) (sessionDirPath t)) eqn:Hpath.
    + apply streq_true in Hpath.
      assert (¬ occupied (sessionsByName sessions) t suffix) as Hfree.
      { intros (s' & Hs' & Hne). congruence. }
      unfold mbind, M_bind, modify_Config. rewrite Hsw.
      split; [split; [done |] |]; intros H; by apply Forall_cons in H as [? _].
    + apply streq_false in Hpath.
      assert (occupied (sessionsByName sessions) t suffix) as Hocc
        by (by exists s).
      rewrite Forall_cons. split; [| intros [_ H]; by apply IH2].
      rewrite IH1. tauto.
  - assert (¬ occupied (sessionsByName sessions) t suffix) as Hfree.
    { intros (s' & Hs' & Hne). congruence. }
    unfold mbind, M_bind, modify_Config, createSession, emit. simpl.
    destruct (tmux_new W _ _ _ _); simpl; rewrite ?Hsw;
      (split; [split; [done |] |]; intros H; by apply Forall_cons in H as [? _]).
Qed.

(** ** Temporary projects *)

Lemma mkdir_attempts_S i n :
  mkdir_attempts i (S n)
  = EvMkdir (temporary_path i) (octal 7 5 0) :: mkdir_attempts (i + 1) n.
Proof.
  unfold mkdir_attempts. cbn [seq fmap list_fmap].
  rewrite Z.add_0_r. f_equal.
  rewrite <- fmap_S_seq, <- list_fmap_compose.
  apply list_fmap_ext. intros _ j _. simpl. do 2 f_equal. lia.
Qed.

Lemma temporary_path_ephemeral i : HasPrefix (temporary_path i) "/tmp/" = true.
Proof. reflexivity. Qed.

Section TemporaryProjects.

Variable W : World.
Variable os_IsExist : string → bool.

Lemma createTemporaryProject_loop_stops k : ∀ n i st r,
  (k < n)%nat →
  (∀ j, (j < k)%nat → exists_already W os_IsExist (i + Z.of_nat j)) →
  os_Mkdir W (temporary_path (i + Z.of_nat k)) (octal 7 5 0) = r →
  (∀ e, r = Some e → os_IsExist e = false) →
  createTemporaryProject_loop W os_IsExist n i st
  = (match r with
     | None => Returned (temporary_path (i + Z.of_nat k))
     | Some e => Fatal ("cannot create temporary directory: " ++ e)
     end,
     {| Config := Config st;
        events := (events st ++ mkdir_attempts i (S k))%list |}).
Proof.
  induction k as [|k IH]; intros n i st r Hn Hbefore Hr Hother.
  - destruct n as [|n]; [lia |]. cbn [createTemporaryProject_loop].
    rewrite Z.add_0_r in Hr.
    unfold mbind, M_bind, emit, mret, M_ret. simpl. rewrite Hr.
    rewrite mkdir_attempts_S. rewrite Z.add_0_r.
    destruct r as [e|]; [| done]. by rewrite (Hother e eq_refl).
  - destruct n as [|n]; [lia |]. cbn [createTemporaryProject_loop].
    destruct (Hbefore 0%nat) as (e & He & Hexist); [lia |].
    rewrite Z.add_0_r in He.
    unfold mbind, M_bind, emit. simpl. rewrite He, Hexist.
    rewrite (IH n (i + 1) _ r); [| lia | | | done].
    + simpl. rewrite (mkdir_attempts_S i (S k)).
      rewrite <- app_assoc. simpl.
      by replace (i + Z.of_nat (S k)) with (i + 1 + Z.of_nat k) by lia.
    + intros j Hj. replace (i + 1 + Z.of_nat j) with (i + Z.of_nat (S j)) by lia.
      apply Hbefore. lia.
    + rewrite <- Hr. do 2 f_equal. lia.
Qed.

Lemma createTemporaryProject_loop_exhausted n : ∀ i st,
  (∀ j, (j < n)%nat → exists_already W os_IsExist (i + Z.of_nat j)) →
  createTemporaryProject_loop W os_IsExist n i st
  = (Fatal ("reached max number of temporary projects (" ++
            Sprintf_d maxNumber ++ "). Please clean your /tmp/t* folders."),
     {| Config := Config st;
        events := (events st ++ mkdir_attempts i n)%list |}).
Proof.
  induction n as [|n IH]; intros i st Hall.
  - simpl. unfold log_Fatalf, mkdir_attempts. simpl. rewrite app_nil_r.
    by destruct st.
  - cbn [createTemporaryProject_loop].
    destruct (Hall 0%nat) as (e & He & Hexist); [lia |].
    rewrite Z.add_0_r in He.
    unfold mbind, M_bind, emit. simpl. rewrite He, Hexist.
    rewrite IH.
    + simpl. rewrite mkdir_attempts_S, <- app_assoc. done.
    + intros j Hj. replace (i + 1 + Z.of_nat j) with (i + Z.of_nat (S j)) by lia.
      apply Hall. lia.
Qed.

Lemma createTemporaryProject_loop_result n : ∀ i st p st',
  createTemporaryProject_loop W os_IsExist n i st = (Returned p, st') →
  ∃ k, (k < n)%nat
       ∧ p = temporary_path (i + Z.of_nat k)
       ∧ os_Mkdir W p (octal 7 5 0) = None
       ∧ (∀ j, (j < k)%nat → exists_already W os_IsExist (i + Z.of_nat j))
       ∧ Config st' = Config st.
Proof.
  induction n as [|n IH]; intros i st p st' Hrun; [done |].
  cbn [createTemporaryProject_loop] in Hrun.
  unfold mbind, M_bind, emit, mret, M_ret in Hrun. simpl in Hrun.
  destruct (os_Mkdir W (temporary_path i) (octal 7 5 0)) as [e|] eqn:He.
  - destruct (os_IsExist e) eqn:Hexist; [| done].
    apply IH in Hrun as (k & Hk & -> & Hmk & Hbefore & Hcfg).
    exists (S k). split; [lia |].
    replace (i + Z.of_nat (S k)) with (i + 1 + Z.of_nat k) by lia.
    split; [done |]. split; [done |]. split; [| done].
    intros [|j] Hj.
    + rewrite Z.add_0_r. by exists e.
    + replace (i + Z.of_nat (S j)) with (i + 1 + Z.of_nat j) by lia.
      apply Hbefore. lia.
  - injection Hrun as <- <-. exists 0%nat. rewrite Z.add_0_r.
    split; [lia |]. split; [done |]. split; [done |]. split; [| done].
    intros j Hj. lia.
Qed.

Lemma createTemporaryProject_loop_config n : ∀ i st o st',
  createTemporaryProject_loop W os_IsExist n i st = (o, st') →
  Config st' = Config st.
Proof.
  induction n as [|n IH]; intros i st o st' Hrun.
  - by injection Hrun as _ <-.
  - cbn [createTemporaryProject_loop] in Hrun.
    unfold mbind, M_bind, emit, mret, M_ret in Hrun. simpl in Hrun.
    destruct (os_Mkdir W (temporary_path i) (octal 7 5 0)) as [e|].
    + destruct (os_IsExist e).
      * by apply IH in Hrun.
      * by injection Hrun as _ <-.
    + by injection Hrun as _ <-.
Qed.

(** X19: with the directories [/tmp/t0], ..., [/tmp/t(k-1)] there already,
    the loop tries them in turn and stops at [/tmp/tk]: it returns that
    path when [os.Mkdir] made it, and ends in [log.Fatalf] when [os.Mkdir]
    failed for another reason; no later index is tried. *)
Theorem createTemporaryProject_first_free (k : nat) st r :
  (k < 1024)%nat →
  (∀ j, (j < k)%nat → exists_already W os_IsExist (Z.of_nat j)) →
  os_Mkdir W (temporary_path (Z.of_nat k)) (octal 7 5 0) = r →
  (∀ e, r = Some e → os_IsExist e = false) →
  createTemporaryProject W os_IsExist st
  = (match r with
     | None => Returned (temporary_path (Z.of_nat k))
     | Some e => Fatal ("cannot create temporary directory: " ++ e)
     end,
     {| Config := Config st;
        events := (events st ++ mkdir_attempts 0 (S k))%list |}).
Proof.
  intros Hk Hbefore Hr Hother. unfold createTemporaryProject.
  by rewrite (createTemporaryProject_loop_stops k _ 0 st r).
Qed.

(** X20: with all of [/tmp/t0], ..., [/tmp/t1023] there already, the run
    ends in [log.Fatalf] after 1024 attempts and has created nothing. *)
Theorem createTemporaryProject_exhausted st :
  (∀ j, (j < 1024)%nat → exists_already W os_IsExist (Z.of_nat j)) →
  createTemporaryProject W os_IsExist st
  = (Fatal "reached max number of temporary projects (1024). Please clean your /tmp/t* folders.",
     {| Config := Config st;
        events := (events st ++ mkdir_attempts 0 1024)%list |}).
Proof.
  intros Hall. unfold createTemporaryProject.
  by rewrite createTemporaryProject_loop_exhausted.
Qed.

(** X21: a path that [createTemporaryProject] returns is [/tmp/tk] for
    some [k] below 1024, was created by this very call, and every
    directory of a lower index existed already: an existing directory is
    never handed out. *)
Theorem createTemporaryProject_result st p st' :
  createTemporaryProject W os_IsExist st = (Returned p, st') →
  ∃ k, (k < 1024)%nat
       ∧ p = temporary_path (Z.of_nat k)
       ∧ os_Mkdir W p (octal 7 5 0) = None
       ∧ (∀ j, (j < k)%nat → exists_already W os_IsExist (Z.of_nat j))
       ∧ Config st' = Config st.
Proof.
  intros Hrun. unfold createTemporaryProject in Hrun.
  apply createTemporaryProject_loop_result in Hrun
    as (k & Hk & Hp & Hmk & Hbefore & Hcfg).
  change (Z.to_nat maxNumber) with 1024%nat in Hk.
  exists k. by repeat split.
Qed.

(** X22: a temporary project never reaches the history: the run of
    [ChangeSession] on the path that [createTemporaryProject] returns
    leaves the favourites as they were. *)
Theorem temporary_project_not_remembered sessions allow st :
  (∀ p, filepath_Base W p ≠ "") →
  Config ((createTemporaryProject W os_IsExist
           ≫= λ sessionId, ChangeSession W sessions sessionId allow) st).2
  = Config st.
Proof.
  intros Hbase. unfold mbind, M_bind.
  destruct (createTemporaryProject W os_IsExist st) as [[p | | |] st1] eqn:E.
  - destruct (createTemporaryProject_loop_result _ _ _ _ _ E)
      as (k & _ & -> & _ & _ & Hcfg).
    rewrite ChangeSession_ephemeral_config;
      [done | apply temporary_path_ephemeral | apply Hbase].
  - exact (createTemporaryProject_loop_config _ _ _ _ _ E).
  - exact (createTemporaryProject_loop_config _ _ _ _ _ E).
  - exact (createTemporaryProject_loop_config _ _ _ _ _ E).
Qed.

End TemporaryProjects.

(** ** The editor and the listing *)


Lemma sessionNames_lookup (sessions : list TmuxSession) :
  ∀ (m : gmap string bool) k,
    foldl (λ m s, <[ts_Name s := true]> m) m sessions !! k
    = if decide (k ∈ ts_Name <$> sessions) then Some true else m !! k.
Proof.
  induction sessions as [|s sessions IH]; intros m k; cbn [foldl].
  - rewrite decide_False; [done | apply not_elem_of_nil].
  - rewrite IH, fmap_cons, lookup_insert.
    destruct (decide (k ∈ ts_Name <$> sessions)) as [Hin | Hnin].
    + rewrite decide_True; [done | by right].
    + destruct (decide (ts_Name s = k)) as [<- | Hne].
      * rewrite decide_True; [done | by left].
      * rewrite decide_False; [done |].
        rewrite elem_of_cons. intros [-> | ?]; done.
Qed.

Lemma allSessions_loop (names : gmap string bool) favs : ∀ acc,
  foldl (λ all fs,
           if negb (default false (names !! fs_Name fs))
           then (all ++ [FavouriteSession_TmuxSession fs])%list else all)
        acc favs
  = (acc ++ (FavouriteSession_TmuxSession
               <$> filter (λ fs, default false (names !! fs_Name fs) = false)
                          favs))%list.
Proof.
  induction favs as [|fs favs IH]; intros acc; cbn [foldl].
  - by rewrite app_nil_r.
  - rewrite IH, filter_cons.
    destruct (default false (names !! fs_Name fs)).
    + by rewrite decide_False by done.
    + rewrite decide_True by done. simpl. by rewrite <- app_assoc.
Qed.

(** X24: with [-a] the rows of the listing are the live sessions, in their
    order, followed by the favourites whose name no live session has, in
    the order of the store, each with its name and path only; without
    [-a] they are the live sessions.  When the names of the live sessions
    and of the favourites are each distinct, no name is listed twice. *)
Theorem printSessions_rows sessions favs :
  printSessions_allSessions sessions favs false = sessions
  ∧ printSessions_allSessions sessions favs true
    = (sessions ++
       (FavouriteSession_TmuxSession
          <$> filter (λ fs, fs_Name fs ∉ ts_Name <$> sessions) favs))%list
  ∧ (NoDup (ts_Name <$> sessions) → NoDup (fs_Name <$> favs) →
     ∀ all, NoDup (ts_Name <$> printSessions_allSessions sessions favs all)).
Proof.
  assert (printSessions_allSessions sessions favs true
          = (sessions ++
             (FavouriteSession_TmuxSession
                <$> filter (λ fs, fs_Name fs ∉ ts_Name <$> sessions) favs))%list)
    as Hrows.
  { unfold printSessions_allSessions. rewrite allSessions_loop.
    do 2 f_equal. apply list_filter_iff. intros fs.
    rewrite sessionNames_lookup, lookup_empty.
    by destruct (decide (fs_Name fs ∈ ts_Name <$> sessions)). }
  split; [done |]. split; [done |].
  intros Hlive Hfavs [|]; [| done].
  rewrite Hrows, fmap_app. apply NoDup_app. split; [done |]. split.
  - intros k Hk (r & -> & Hr)%list_elem_of_fmap.
    apply list_elem_of_fmap in Hr as (fs & -> & Hfs).
    apply list_elem_of_filter in Hfs as [Hnin _]. by apply Hnin.
  - rewrite <- list_fmap_compose.
    change (ts_Name ∘ FavouriteSession_TmuxSession) with fs_Name.
    eapply sublist_NoDup; [exact Hfavs |].
    apply fmap_sublist, sublist_filter.
Qed.

(** ** Numbers in the listing *)

Lemma parse_digits_uint d : ∀ a,
  parse_digits (NilEmpty.string_of_uint d)
    (Z.of_N (DecimalPos.Unsigned.of_lu a))
  = Some (Z.of_N (DecimalPos.Unsigned.of_lu (Decimal.revapp d a))).
Proof.
  induction d as [|d IH|d IH|d IH|d IH|d IH|d IH|d IH|d IH|d IH|d IH];
    intros a; [done | ..];
    cbn [NilEmpty.string_of_uint parse_digits Decimal.revapp];
    match goal with
    | |- context [digit_of ?c] =>
        let v := eval vm_compute in (digit_of c) in
        change (digit_of c) with v
    end;
    cbv iota beta; rewrite <- IH; f_equal;
    match goal with
    | |- _ = Z.of_N (DecimalPos.Unsigned.of_lu ?x) =>
        rewrite (DecimalPos.Unsigned.of_lu_eqn x)
    end;
    cbn [DecimalPos.Unsigned.hd DecimalPos.Unsigned.tl]; lia.
Qed.

Lemma parse_digits_positive p :
  parse_digits (NilEmpty.string_of_uint (Pos.to_uint p)) 0 = Some (Z.pos p).
Proof.
  change 0 with (Z.of_N (DecimalPos.Unsigned.of_lu Decimal.Nil)).
  rewrite parse_digits_uint.
  change (Decimal.revapp (Pos.to_uint p) Decimal.Nil)
    with (Decimal.rev (Pos.to_uint p)).
  by rewrite <- DecimalPos.Unsigned.of_uint_alt, DecimalPos.Unsigned.of_to.
Qed.

(** The decimal text of a positive number starts with a digit. *)
Lemma string_of_uint_digits d :
  d ≠ Decimal.Nil →
  ∃ c s, NilEmpty.string_of_uint d = String c s
         ∧ Ascii.eqb c "+" = false ∧ Ascii.eqb c "-" = false
         ∧ NilZero.string_of_uint d = String c s.
Proof.
  destruct d; [done | ..]; intros _; eexists _, _; by repeat split.
Qed.

Lemma ParseInt_Sprintf_d z :
  - 2 ^ 63 ≤ z < 2 ^ 63 → ParseInt (Sprintf_d z) = Some z.
Proof.
  intros Hz. unfold Sprintf_d. destruct z as [|p|p]; [done | |].
  - cbn [Z.to_int NilZero.string_of_int].
    destruct (string_of_uint_digits (Pos.to_uint p))
      as (c & s & Hs & Hplus & Hminus & ->);
      [apply DecimalPos.Unsigned.to_uint_nonnil |].
    unfold ParseInt. rewrite Hplus, Hminus, <- Hs, parse_digits_positive.
    assert ((- 2 ^ 63 <=? Z.pos p) && (Z.pos p <? 2 ^ 63) = true) as ->; [| done].
    apply andb_true_iff. split; [apply Z.leb_le | apply Z.ltb_lt]; lia.
  - cbn [Z.to_int NilZero.string_of_int].
    destruct (string_of_uint_digits (Pos.to_uint p))
      as (c & s & Hs & Hplus & Hminus & ->);
      [apply DecimalPos.Unsigned.to_uint_nonnil |].
    unfold ParseInt.
    change (Ascii.eqb "-" "+") with false.
    change (Ascii.eqb "-" "-") with true. cbv iota beta.
    rewrite <- Hs, parse_digits_positive.
    assert ((- 2 ^ 63 <=? - Z.pos p) && (- Z.pos p <? 2 ^ 63) = true) as ->;
      [| done].
    apply andb_true_iff. split; [apply Z.leb_le | apply Z.ltb_lt]; lia.
Qed.

Lemma string_of_uint_no_tab d :
  count_char "009" (NilEmpty.string_of_uint d) = 0%nat.
Proof. induction d; simpl; done. Qed.

Lemma Sprintf_d_no_tab z : count_char "009" (Sprintf_d z) = 0%nat.
Proof.
  unfold Sprintf_d.
  assert (∀ d, count_char "009" (NilZero.string_of_uint d) = 0%nat) as H.
  { intros d. destruct d; try done; apply (string_of_uint_no_tab (_ d)). }
  destruct z; simpl; try done; apply H.
Qed.

(** X25: the line that tmux prints for a session reads back as that
    session: for a name and a path without tabs, [parse_line] returns the
    name, the path, attached exactly when some client is attached, the
    number of windows, and the activity as [time.Unix] of the seconds. *)
Theorem parse_line_round_trip name path clients windows activity :
  count_char "009" name = 0%nat →
  count_char "009" path = 0%nat →
  0 ≤ clients < 2 ^ 63 →
  - 2 ^ 63 ≤ windows < 2 ^ 63 →
  - 2 ^ 63 ≤ activity < 2 ^ 63 →
  parse_line (tmux_format_line name path clients windows activity)
  = Some {| ts_Name := name;
            ts_Attached := negb (clients =? 0);
            ts_LastActivity := time_Unix activity;
            ts_WindowsCount := windows;
            ts_Path := path |}.
Proof.
  intros Hname Hpath Hclients Hwindows Hactivity.
  unfold tmux_format_line.
  rewrite parse_line_five_fields by (done || apply Sprintf_d_no_tab).
  unfold Atoi. rewrite !ParseInt_Sprintf_d by done. simpl.
  do 2 f_equal.
  destruct (Z.eqb_spec clients 0) as [-> | Hne]; [done |].
  f_equal. apply streq_false. intros Heq.
  assert (ParseInt (Sprintf_d clients) = ParseInt "0") as H by (by rewrite Heq).
  rewrite ParseInt_Sprintf_d in H by lia. by injection H.
Qed.

(** ** The run for a live session and for a favourite *)

Lemma string_app_empty (a : string) : a ++ "" = a.
Proof.
  induction a as [|c a IH]; [done |].
  change (String c (a ++ "") = String c a). by rewrite IH.
Qed.

Section WholeRuns.

Variable W : World.

(** X26: for a token that is the name of a live session the run touches
    the history under that name with the directory of the session and
    switches to it; it asks tmux for no new session. *)
Theorem ChangeSession_live_session sessions token allow st s :
  plain_token token →
  token ≠ "" →
  last (filter (λ s, ts_Name s = token) sessions) = Some s →
  ChangeSession W sessions token allow st
  = (modify_Config (Touch token (ts_Path s));; switchToSession W token) st
  ∧ created_names (events (ChangeSession W sessions token allow st).2)
    = created_names (events st).
Proof.
  intros Hplain Hne Hlast.
  assert (ts_Name s = token) as Hname.
  { by apply last_Some_elem_of, list_elem_of_filter in Hlast as [? _]. }
  assert (ChangeSession W sessions token allow st
          = (modify_Config (Touch token (ts_Path s));;
             switchToSession W token) st) as Heq.
  { unfold ChangeSession. unfold mbind at 1. unfold M_bind at 1.
    rewrite (resolve_live_exact_target W sessions token allow st s) by done.
    unfold materialize, SUFFIXES. cbn [materialize_loop sessionName sessionDirPath].
    rewrite string_app_empty, sessionsByName_lookup, Hlast.
    by rewrite streq_refl, Hname. }
  split; [done |]. rewrite Heq.
  unfold mbind, M_bind, modify_Config.
  match goal with
  | |- context [switchToSession W ?n ?s0] =>
      by destruct (switchToSession_creates_nothing W n s0) as [-> _]
  end.
Qed.

(** X27: for a token that no live session takes and that is the name or an
    alias of a favourite whose name no live session has, the run touches
    the history under the name of the favourite, asks tmux for a new session
    of that name in the stored directory with the stored command and
    environment, and switches to it. *)
Theorem ChangeSession_favourite sessions token allow st
    (pre : list FavouriteSession) (R : FavouriteSession)
    (post : list FavouriteSession) :
  plain_token token →
  no_live_match sessions token →
  Sessions (Config st) = (pre ++ R :: post)%list →
  no_favourite_exact pre token →
  fs_Name R = token ∨ token ∈ range (fs_Aliases R) →
  fs_Name R ≠ "" →
  Forall (λ s, ts_Name s ≠ fs_Name R) sessions →
  ChangeSession W sessions token allow st
  = (modify_Config (Touch (fs_Name R) (fs_Path R));;
     createSession W (fs_Name R) (fs_Path R) (fs_Cmd R) (fs_Env R);;
     switchToSession W (fs_Name R)) st.
Proof.
  intros Hplain Hlive Hfavs Hpre HR Hname Hfree.
  unfold ChangeSession. unfold mbind at 1. unfold M_bind at 1.
  rewrite resolve_plain, live_rules_unmatched by done.
  unfold favourite_exact. simpl. rewrite Hfavs.
  rewrite (favourite_exact_loop_found token pre R post no_target);
    [| done | done | tauto].
  unfold favourite_prefix.
  rewrite (proj2 (streq_false (sessionName (set_favourite R)) "") Hname).
  rewrite resolve_home_named by done.
  unfold materialize, SUFFIXES.
  cbn [materialize_loop set_favourite sessionName sessionDirPath
       sessionStartCmd sessionEnv].
  rewrite string_app_empty.
  by rewrite (proj2 (sessionsByName_None sessions (fs_Name R)) Hfree).
Qed.

End WholeRuns.

(** * Further worked instances *)

Lemma plain_token_letter (token : string) c rest :
  token = String c rest → c ≠ "."%char → c ≠ "/"%char → c ≠ "-"%char →
  plain_token token.
Proof.
  intros -> Hdot Hslash Hdash. split; [congruence |]. split.
  - cbn [HasPrefix]. apply andb_false_iff. left.
    apply Ascii.eqb_neq. congruence.
  - by apply (not_dashes _ c rest).
Qed.

Lemma sample_config_names : NoDup (fs_Name <$> Sessions sample_config).
Proof.
  repeat (apply NoDup_cons_2; [rewrite ?elem_of_cons, elem_of_nil; intros H;
                               repeat destruct H as [H | H]; done |]).
  apply NoDup_nil_2.
Qed.

Lemma sample_listing_names : NoDup (ts_Name <$> sample_listing).
Proof.
  repeat (apply NoDup_cons_2; [rewrite ?elem_of_cons, elem_of_nil; intros H;
                               repeat destruct H as [H | H]; done |]).
  apply NoDup_nil_2.
Qed.

Lemma Touch_unique_names_witness :
  NoDup (fs_Name <$> Sessions sample_config)
  ∧ NoDup (fs_Name <$> Sessions (Touch "project" "/srv/project" sample_config)).
Proof.
  split; [exact sample_config_names |].
  apply (Touch_unique_names "project" "/srv/project" sample_config).
  exact sample_config_names.
Defined.

Lemma Touch_then_Save_writes_witness :
  Sessions (Touch "fresh" "/home/u/fresh" (Config (start sample_config)))
    ≠ Sessions (Config (start sample_config))
  ∧ json_MarshalIndent stable_world
      (Sessions (Touch "fresh" "/home/u/fresh" (Config (start sample_config))))
    = ("{}", None)
  ∧ changed (Touch "fresh" "/home/u/fresh" (Config (start sample_config))) = true
  ∧ events ((modify_Config (Touch "fresh" "/home/u/fresh");; Save stable_world)
              (start sample_config)).2
    = [EvWriteFile "/home/u/.config/pr.json" "{}" (octal 6 4 0)].
Proof.
  assert (H : Sessions (Touch "fresh" "/home/u/fresh" (Config (start sample_config)))
              ≠ Sessions (Config (start sample_config))).
  { intros H. apply (f_equal length) in H. discriminate H. }
  split; [exact H |]. split; [reflexivity |].
  apply (Touch_then_Save_writes stable_world "fresh" "/home/u/fresh"
           (start sample_config) "{}" H eq_refl).
Defined.

Lemma parse_line_field_count_witness :
  count_char "009" (tmux_format_line "web" "/home/u/web" 1 2 1700000000) = 4%nat
  ∧ is_Some (parse_line (tmux_format_line "web" "/home/u/web" 1 2 1700000000)).
Proof.
  split; [reflexivity |].
  apply (proj2 (parse_line_field_count
                  (tmux_format_line "web" "/home/u/web" 1 2 1700000000))).
  reflexivity.
Defined.

Lemma listSessions_lines_witness :
  tmux_list_sessions listing_world = (printed listing_lines, None)
  ∧ Forall (λ l, count_char "010" l = 0%nat) listing_lines
  ∧ listSessions listing_world (start empty_config)
    = (Returned (omap parse_line listing_lines),
       {| Config := empty_config; events := [EvTmuxListSessions] |}).
Proof.
  assert (H : Forall (λ l, count_char "010" l = 0%nat) listing_lines)
    by (repeat constructor).
  split; [reflexivity |]. split; [exact H |].
  apply (listSessions_lines listing_world listing_lines (start empty_config)
           eq_refl H).
Defined.

(** The two sessions of the sample listing, as they are read. *)
Example listing_read :
  omap parse_line listing_lines
  = [{| ts_Name := "web"; ts_Attached := true;
        ts_LastActivity := time_Unix 1700000000;
        ts_WindowsCount := 2; ts_Path := "/home/u/web" |};
     {| ts_Name := "docs"; ts_Attached := false;
        ts_LastActivity := time_Unix 1690000000;
        ts_WindowsCount := 1; ts_Path := "/home/u/docs" |}].
Proof. reflexivity. Qed.

Lemma parse_line_round_trip_witness :
  count_char "009" "web" = 0%nat
  ∧ count_char "009" "/home/u/web" = 0%nat
  ∧ 0 ≤ 1 < 2 ^ 63
  ∧ - 2 ^ 63 ≤ 2 < 2 ^ 63
  ∧ - 2 ^ 63 ≤ 1700000000 < 2 ^ 63
  ∧ parse_line (tmux_format_line "web" "/home/u/web" 1 2 1700000000)
    = Some {| ts_Name := "web"; ts_Attached := negb (1 =? 0);
              ts_LastActivity := time_Unix 1700000000;
              ts_WindowsCount := 2; ts_Path := "/home/u/web" |}.
Proof.
  assert (H1 : 0 ≤ 1 < 2 ^ 63) by lia.
  assert (H2 : - 2 ^ 63 ≤ 2 < 2 ^ 63) by lia.
  assert (H3 : - 2 ^ 63 ≤ 1700000000 < 2 ^ 63) by lia.
  split; [reflexivity |]. split; [reflexivity |].
  split; [exact H1 |]. split; [exact H2 |]. split; [exact H3 |].
  apply (parse_line_round_trip "web" "/home/u/web" 1 2 1700000000
           eq_refl eq_refl H1 H2 H3).
Defined.

(** ** Resolution *)

Lemma plain_docs : plain_token "docs".
Proof. apply (plain_token_letter "docs" "d" "ocs"); [reflexivity | discriminate..]. Qed.

Lemma plain_proj : plain_token "proj".
Proof. apply (plain_token_letter "proj" "p" "roj"); [reflexivity | discriminate..]. Qed.

Lemma plain_project : plain_token "project".
Proof.
  apply (plain_token_letter "project" "p" "roject"); [reflexivity | discriminate..].
Qed.

Lemma plain_src : plain_token "src".
Proof. apply (plain_token_letter "src" "s" "rc"); [reflexivity | discriminate..]. Qed.

Lemma plain_sc : plain_token "sc".
Proof. apply (plain_token_letter "sc" "s" "c"); [reflexivity | discriminate..]. Qed.

Lemma plain_zz : plain_token "zz".
Proof. apply (plain_token_letter "zz" "z" "z"); [reflexivity | discriminate..]. Qed.

Lemma no_favourite_for (token : string) :
  HasPrefix "notes" token = false → HasPrefix "project" token = false →
  token ≠ "p" →
  no_favourite_match (Sessions sample_config) token.
Proof.
  intros H1 H2 Hp. repeat constructor; try done.
  - apply not_elem_of_nil.
  - simpl. rewrite elem_of_cons, elem_of_nil. tauto.
Qed.

Lemma resolve_live_exact_witness :
  plain_token "docs"
  ∧ "docs" ≠ ""
  ∧ last (filter (λ s, ts_Name s = "docs") sample_listing) = Some session_C
  ∧ resolve stable_world sample_listing "docs" false (start sample_config)
    = (Returned {| sessionName := "docs"; sessionDirPath := "/home/u/docs";
                   sessionStartCmd := ""; sessionEnv := None |},
       start sample_config).
Proof.
  assert (Hne : "docs" ≠ "") by discriminate.
  split; [exact plain_docs |]. split; [exact Hne |]. split; [reflexivity |].
  apply (resolve_live_exact stable_world sample_listing "docs" false
           (start sample_config) session_C plain_docs Hne eq_refl).
Defined.

Lemma resolve_favourite_prefix_first_witness :
  plain_token "proj"
  ∧ no_live_match sample_listing "proj"
  ∧ no_favourite_exact (Sessions (Config (start sample_config))) "proj"
  ∧ Sessions (Config (start sample_config))
    = ([sample_notes] ++ sample_project :: [])%list
  ∧ Forall (λ fs, HasPrefix (fs_Name fs) "proj" = false) [sample_notes]
  ∧ HasPrefix (fs_Name sample_project) "proj" = true
  ∧ fs_Name sample_project ≠ ""
  ∧ resolve stable_world sample_listing "proj" false (start sample_config)
    = (Returned {| sessionName := "project"; sessionDirPath := "/home/u/project";
                   sessionStartCmd := "make watch";
                   sessionEnv := Some {["GOFLAGS" := "-mod=vendor"]} |},
       start sample_config).
Proof.
  assert (Hlive : no_live_match sample_listing "proj") by (repeat constructor).
  assert (Hexact : no_favourite_exact (Sessions (Config (start sample_config))) "proj").
  { repeat constructor; try discriminate.
    - apply not_elem_of_nil.
    - simpl. rewrite elem_of_cons, elem_of_nil. intros [H | []]. discriminate H. }
  assert (Hpre : Forall (λ fs, HasPrefix (fs_Name fs) "proj" = false) [sample_notes])
    by (repeat constructor).
  assert (Hname : fs_Name sample_project ≠ "") by discriminate.
  split; [exact plain_proj |]. split; [exact Hlive |]. split; [exact Hexact |].
  split; [reflexivity |]. split; [exact Hpre |]. split; [reflexivity |].
  split; [exact Hname |].
  apply (resolve_favourite_prefix_first stable_world sample_listing "proj" false
           (start sample_config) [sample_notes] sample_project []
           plain_proj Hlive Hexact eq_refl Hpre eq_refl Hname).
Defined.

Lemma resolve_home_directory_witness :
  plain_token "src"
  ∧ no_live_match sample_listing "src"
  ∧ no_favourite_match (Sessions (Config (start sample_config))) "src"
  ∧ isDir home_world (filepath_Join home_world (Home home_world) "src") = true
  ∧ filepath_Base home_world (filepath_Join home_world (Home home_world) "src") ≠ ""
  ∧ resolve home_world sample_listing "src" false (start sample_config)
    = (Returned {| sessionName := "src"; sessionDirPath := "/home/u/src";
                   sessionStartCmd := ""; sessionEnv := None |},
       start sample_config).
Proof.
  assert (Hlive : no_live_match sample_listing "src") by (repeat constructor).
  assert (Hfav : no_favourite_match (Sessions (Config (start sample_config))) "src")
    by (apply no_favourite_for; [reflexivity | reflexivity | discriminate]).
  assert (Hbase : filepath_Base home_world
                    (filepath_Join home_world (Home home_world) "src") ≠ "")
    by discriminate.
  split; [exact plain_src |]. split; [exact Hlive |]. split; [exact Hfav |].
  split; [reflexivity |]. split; [exact Hbase |].
  apply (resolve_home_directory home_world sample_listing "src" false
           (start sample_config) plain_src Hlive Hfav eq_refl Hbase).
Defined.

Lemma resolve_home_prefix_first_witness :
  plain_token "sc"
  ∧ no_live_match sample_listing "sc"
  ∧ no_favourite_match (Sessions (Config (start sample_config))) "sc"
  ∧ isDir home_world (filepath_Join home_world (Home home_world) "sc") = false
  ∧ os_ReadDir home_world (Home home_world)
    = (([".bashrc"; "scratch.txt"] ++ "scripts" :: ["src"])%list, None)
  ∧ Forall (λ e', HasPrefix e' "sc" = false
                  ∨ isDir home_world
                      (filepath_Join home_world (Home home_world) e') = false)
           [".bashrc"; "scratch.txt"]
  ∧ HasPrefix "scripts" "sc" = true
  ∧ isDir home_world (filepath_Join home_world (Home home_world) "scripts") = true
  ∧ filepath_Base home_world
      (filepath_Join home_world (Home home_world) "scripts") ≠ ""
  ∧ resolve home_world sample_listing "sc" false (start sample_config)
    = (Returned {| sessionName := "scripts"; sessionDirPath := "/home/u/scripts";
                   sessionStartCmd := ""; sessionEnv := None |},
       start sample_config).
Proof.
  assert (Hlive : no_live_match sample_listing "sc") by (repeat constructor).
  assert (Hfav : no_favourite_match (Sessions (Config (start sample_config))) "sc")
    by (apply no_favourite_for; [reflexivity | reflexivity | discriminate]).
  assert (Hpre : Forall (λ e', HasPrefix e' "sc" = false
                   ∨ isDir home_world
                       (filepath_Join home_world (Home home_world) e') = false)
                 [".bashrc"; "scratch.txt"]).
  { constructor; [by left |]. constructor; [by right |]. constructor. }
  assert (Hbase : filepath_Base home_world
                    (filepath_Join home_world (Home home_world) "scripts") ≠ "")
    by discriminate.
  split; [exact plain_sc |]. split; [exact Hlive |]. split; [exact Hfav |].
  split; [reflexivity |]. split; [reflexivity |]. split; [exact Hpre |].
  split; [reflexivity |]. split; [reflexivity |]. split; [exact Hbase |].
  apply (resolve_home_prefix_first home_world sample_listing "sc" false
           (start sample_config) [".bashrc"; "scratch.txt"] "scripts" ["src"]
           plain_sc Hlive Hfav eq_refl eq_refl Hpre eq_refl eq_refl Hbase).
Defined.

Lemma resolve_no_match_witness :
  plain_token "zz"
  ∧ no_live_match sample_listing "zz"
  ∧ no_favourite_match (Sessions (Config (start sample_config))) "zz"
  ∧ isDir home_world (filepath_Join home_world (Home home_world) "zz") = false
  ∧ os_ReadDir home_world (Home home_world)
    = ([".bashrc"; "scratch.txt"; "scripts"; "src"], None)
  ∧ Forall (λ e', HasPrefix e' "zz" = false
                  ∨ isDir home_world
                      (filepath_Join home_world (Home home_world) e') = false)
           [".bashrc"; "scratch.txt"; "scripts"; "src"]
  ∧ resolve home_world sample_listing "zz" false (start sample_config)
    = (Fatal "directory ~/zz* does not exist", start sample_config).
Proof.
  assert (Hlive : no_live_match sample_listing "zz") by (repeat constructor).
  assert (Hfav : no_favourite_match (Sessions (Config (start sample_config))) "zz")
    by (apply no_favourite_for; [reflexivity | reflexivity | discriminate]).
  assert (Hnone : Forall (λ e', HasPrefix e' "zz" = false
                    ∨ isDir home_world
                        (filepath_Join home_world (Home home_world) e') = false)
                  [".bashrc"; "scratch.txt"; "scripts"; "src"])
    by (repeat (constructor; [by left |]); constructor).
  split; [exact plain_zz |]. split; [exact Hlive |]. split; [exact Hfav |].
  split; [reflexivity |]. split; [reflexivity |]. split; [exact Hnone |].
  apply (resolve_no_match home_world sample_listing "zz" false
           (start sample_config) _ None plain_zz Hlive Hfav eq_refl eq_refl Hnone).
Defined.

Lemma resolve_absolute_path_witness :
  (HasPrefix "/work/proj" "/" = true
   ∧ filepath_Base paths_world "/work/proj" ≠ ""
   ∧ isDir paths_world "/work/proj" = true
   ∧ resolve paths_world [] "/work/proj" false (start empty_config)
     = (Returned {| sessionName := "proj"; sessionDirPath := "/work/proj";
                    sessionStartCmd := ""; sessionEnv := None |},
        start empty_config))
  ∧ (isDir paths_world "/tmp/x" = false
     ∧ isDir paths_world (filepath_Dir paths_world "/tmp/x") = true
     ∧ false || HasPrefix "/tmp/x" "/tmp/" = true
     ∧ resolve paths_world [] "/tmp/x" false (start empty_config)
       = (Returned {| sessionName := "x"; sessionDirPath := "/tmp/x";
                      sessionStartCmd := ""; sessionEnv := None |},
          {| Config := empty_config;
             events := [EvMkdir "/tmp/x" (octal 7 7 7)] |}))
  ∧ (isDir paths_world "/work/new" = false
     ∧ isDir paths_world (filepath_Dir paths_world "/work/new") = true
     ∧ HasPrefix "/work/new" "/tmp/" = false
     ∧ resolve paths_world [] "/work/new" false (start empty_config)
       = (Fatal "cannot switch to /work/new (directory does not exist): use -c flag to create a new directory",
          start empty_config))
  ∧ (isDir paths_world "/none/x" = false
     ∧ isDir paths_world (filepath_Dir paths_world "/none/x") = false
     ∧ resolve paths_world [] "/none/x" false (start empty_config)
       = (Fatal "cannot switch to /none/x: looks like a dir but does not exist and cannot be created",
          start empty_config)).
Proof.
  assert (H1 : filepath_Base paths_world "/work/proj" ≠ "") by discriminate.
  assert (H2 : filepath_Base paths_world "/tmp/x" ≠ "") by discriminate.
  assert (H3 : filepath_Base paths_world "/work/new" ≠ "") by discriminate.
  assert (H4 : filepath_Base paths_world "/none/x" ≠ "") by discriminate.
  split; [| split; [| split]].
  - split; [reflexivity |]. split; [exact H1 |]. split; [reflexivity |].
    apply (proj1 (resolve_absolute_path paths_world [] "/work/proj" false
                    (start empty_config) eq_refl H1) eq_refl).
  - split; [reflexivity |]. split; [reflexivity |]. split; [reflexivity |].
    apply (proj1 (proj2 (resolve_absolute_path paths_world [] "/tmp/x" false
                           (start empty_config) eq_refl H2))
             eq_refl eq_refl eq_refl).
  - split; [reflexivity |]. split; [reflexivity |]. split; [reflexivity |].
    apply (proj1 (proj2 (proj2 (resolve_absolute_path paths_world [] "/work/new"
                                  false (start empty_config) eq_refl H3)))
             eq_refl eq_refl eq_refl eq_refl).
  - split; [reflexivity |]. split; [reflexivity |].
    apply (proj2 (proj2 (proj2 (resolve_absolute_path paths_world [] "/none/x"
                                  false (start empty_config) eq_refl H4)))
             eq_refl eq_refl).
Defined.

Lemma resolve_here_witness :
  os_Getwd outside_world = ("/home/u", None)
  ∧ "/home/u" ≠ "."
  ∧ resolve outside_world [] "." false (start empty_config)
    = resolve outside_world [] "/home/u" false (start empty_config).
Proof.
  assert (Hne : "/home/u" ≠ ".") by discriminate.
  split; [reflexivity |]. split; [exact Hne |].
  apply (proj2 (resolve_here outside_world [] false (start empty_config)
                  "/home/u" None eq_refl) eq_refl Hne).
Defined.

(** The current directory as the target. *)
Example resolve_here_value :
  resolve outside_world [] "." false (start empty_config)
  = (Returned {| sessionName := "u"; sessionDirPath := "/home/u";
                 sessionStartCmd := ""; sessionEnv := None |},
     start empty_config).
Proof. reflexivity. Qed.

(** ** Materialisation and runs *)

Lemma materialize_existing_session_witness :
  SUFFIXES = ([""] ++ "1" :: ["2"; "3"; "4"; "5"; "6"; "7"; "8"; "9"])%list
  ∧ Forall (occupied (sessionsByName suffixed_live) (collision_target "" None)) [""]
  ∧ sessionsByName suffixed_live !! ("proj" ++ "1")
    = Some {| ts_Name := "proj1"; ts_Attached := false; ts_LastActivity := 2;
              ts_WindowsCount := 1; ts_Path := "/work/proj" |}
  ∧ materialize stable_world suffixed_live (collision_target "" None)
      (start empty_config)
    = (Returned tt,
       {| Config := Touch "proj1" "/work/proj" empty_config;
          events := [EvTmuxSwitchClient "proj1"] |})
  ∧ created_names
      (events (materialize stable_world suffixed_live (collision_target "" None)
                 (start empty_config)).2) = [].
Proof.
  assert (Hpre : Forall (occupied (sessionsByName suffixed_live)
                           (collision_target "" None)) [""]).
  { constructor; [| constructor].
    exists (live "proj" 1). split; [by rewrite sessionsByName_lookup | discriminate]. }
  assert (Hs : sessionsByName suffixed_live !! ("proj" ++ "1")
               = Some {| ts_Name := "proj1"; ts_Attached := false;
                         ts_LastActivity := 2; ts_WindowsCount := 1;
                         ts_Path := "/work/proj" |})
    by (by rewrite sessionsByName_lookup).
  split; [reflexivity |]. split; [exact Hpre |]. split; [exact Hs |].
  pose proof (materialize_existing_session stable_world suffixed_live
                (collision_target "" None) (start empty_config)
                [""] "1" ["2"; "3"; "4"; "5"; "6"; "7"; "8"; "9"] _
                eq_refl Hpre Hs eq_refl) as (_ & Hrun & Hnone).
  split; [exact Hrun | exact Hnone].
Defined.

Lemma ten_live_occupied :
  Forall (occupied (sessionsByName ten_live) (collision_target "" None)) SUFFIXES.
Proof.
  unfold SUFFIXES.
  repeat (constructor;
          [eexists; split; [by rewrite sessionsByName_lookup | discriminate] |]).
  constructor.
Qed.

Lemma materialize_fatal_iff_exhausted_witness :
  Forall (occupied (sessionsByName ten_live) (collision_target "" None)) SUFFIXES
  ∧ is_fatal (materialize stable_world ten_live (collision_target "" None)
                (start empty_config)).1 = true
  ∧ (materialize stable_world ten_live (collision_target "" None)
       (start empty_config)).2 = start empty_config.
Proof.
  split; [exact ten_live_occupied |].
  pose proof (materialize_fatal_iff_exhausted stable_world ten_live
                (collision_target "" None) (start empty_config)) as [Hiff Hst].
  split; [apply (proj2 Hiff) | apply Hst]; exact ten_live_occupied.
Defined.

(** The message of the exhausted loop. *)
Example materialize_exhausted_message :
  materialize stable_world ten_live (collision_target "" None) (start empty_config)
  = (Fatal "cannot create session proj because names proj, proj1..proj9 are occupied",
     start empty_config).
Proof. reflexivity. Qed.

Lemma ChangeSession_ephemeral_witness :
  HasPrefix "/tmp/x" "/tmp/" = true
  ∧ filepath_Base paths_world "/tmp/x" ≠ ""
  ∧ Config (ChangeSession paths_world [] "/tmp/x" false (start sample_config)).2
    = Config (start sample_config).
Proof.
  assert (H : filepath_Base paths_world "/tmp/x" ≠ "") by discriminate.
  split; [reflexivity |]. split; [exact H |].
  apply (ChangeSession_ephemeral paths_world [] "/tmp/x" false
           (start sample_config) eq_refl H).
Defined.

Lemma main_outside_tmux_never_saves_witness :
  "src" ≠ ""
  ∧ os_Getenv outside_world "TMUX" = ""
  ∧ returned (main outside_world "src" false false false
                (start sample_config)).1 = false
  ∧ written_files (events (main outside_world "src" false false false
                             (start sample_config)).2)
    = written_files (events (start sample_config)).
Proof.
  assert (Hid : "src" ≠ "") by discriminate.
  split; [exact Hid |]. split; [reflexivity |].
  apply (main_outside_tmux_never_saves outside_world "src" false false false
           (start sample_config) Hid eq_refl).
Defined.

(** Outside tmux the new favourite is in the store in memory and the
    process has become [tmux attach]: nothing was written. *)
Example main_outside_run :
  main outside_world "src" false false false (start sample_config)
  = (Replaced,
     {| Config := Touch "src" "/home/u/src" sample_config;
        events := [EvTmuxListSessions;
                   EvTmuxNew "src" "/home/u/src" "" None;
                   EvExec "/usr/bin/tmux" ["tmux"; "attach"; "-t"; "src"]] |}).
Proof. reflexivity. Qed.

(** ** Temporary projects *)

Lemma four_taken (j : nat) :
  (j < 4)%nat → exists_already four_taken_world is_file_exists (Z.of_nat j).
Proof.
  intros Hj. exists file_exists.
  destruct j as [|[|[|[|j]]]]; [by split.. | lia].
Qed.

Lemma createTemporaryProject_first_free_witness :
  (4 < 1024)%nat
  ∧ (∀ j, (j < 4)%nat → exists_already four_taken_world is_file_exists (Z.of_nat j))
  ∧ os_Mkdir four_taken_world (temporary_path (Z.of_nat 4)) (octal 7 5 0) = None
  ∧ createTemporaryProject four_taken_world is_file_exists (start empty_config)
    = (Returned "/tmp/t4",
       {| Config := empty_config;
          events := [EvMkdir "/tmp/t0" (octal 7 5 0); EvMkdir "/tmp/t1" (octal 7 5 0);
                     EvMkdir "/tmp/t2" (octal 7 5 0); EvMkdir "/tmp/t3" (octal 7 5 0);
                     EvMkdir "/tmp/t4" (octal 7 5 0)] |}).
Proof.
  assert (Hk : (4 < 1024)%nat) by lia.
  split; [exact Hk |]. split; [exact four_taken |]. split; [reflexivity |].
  apply (createTemporaryProject_first_free four_taken_world is_file_exists 4
           (start empty_config) None Hk four_taken eq_refl).
  intros e He. discriminate He.
Defined.

Lemma all_taken (j : nat) :
  (j < 1024)%nat → exists_already all_taken_world is_file_exists (Z.of_nat j).
Proof. intros _. exists file_exists. by split. Qed.

Lemma createTemporaryProject_exhausted_witness :
  (∀ j, (j < 1024)%nat → exists_already all_taken_world is_file_exists (Z.of_nat j))
  ∧ createTemporaryProject all_taken_world is_file_exists (start empty_config)
    = (Fatal "reached max number of temporary projects (1024). Please clean your /tmp/t* folders.",
       {| Config := empty_config;
          events := ([] ++ mkdir_attempts 0 1024)%list |}).
Proof.
  split; [exact all_taken |].
  apply (createTemporaryProject_exhausted all_taken_world is_file_exists
           (start empty_config) all_taken).
Defined.

Lemma createTemporaryProject_result_witness :
  createTemporaryProject four_taken_world is_file_exists (start sample_config)
  = (Returned "/tmp/t4",
     {| Config := sample_config;
        events := mkdir_attempts 0 5 |})
  ∧ ∃ k, (k < 1024)%nat
         ∧ "/tmp/t4" = temporary_path (Z.of_nat k)
         ∧ os_Mkdir four_taken_world "/tmp/t4" (octal 7 5 0) = None
         ∧ (∀ j, (j < k)%nat →
              exists_already four_taken_world is_file_exists (Z.of_nat j))
         ∧ Config {| Config := sample_config; events := mkdir_attempts 0 5 |}
           = Config (start sample_config).
Proof.
  assert (H : createTemporaryProject four_taken_world is_file_exists
                (start sample_config)
              = (Returned "/tmp/t4",
                 {| Config := sample_config; events := mkdir_attempts 0 5 |}))
    by reflexivity.
  split; [exact H |].
  apply (createTemporaryProject_result four_taken_world is_file_exists
           (start sample_config) "/tmp/t4" _ H).
Defined.

Lemma last_element_nonempty path : last_element path ≠ "".
Proof.
  unfold last_element.
  destruct (last (filter (λ f, f ≠ "") (Split path "/"))) as [x|] eqn:E; [| done].
  by apply last_Some_elem_of, list_elem_of_filter in E as [? _].
Qed.

(** [pr -T] with [/tmp/t0], ..., [/tmp/t3] there: the directory [/tmp/t4]
    is made, the session [t4] is created in it and switched to, and the
    history is as it was. *)
Example temporary_project_run :
  (createTemporaryProject temporary_world is_file_exists
   ≫= λ sessionId, ChangeSession temporary_world [] sessionId false)
    (start sample_config)
  = (Returned tt,
     {| Config := sample_config;
        events := [EvMkdir "/tmp/t0" (octal 7 5 0); EvMkdir "/tmp/t1" (octal 7 5 0);
                   EvMkdir "/tmp/t2" (octal 7 5 0); EvMkdir "/tmp/t3" (octal 7 5 0);
                   EvMkdir "/tmp/t4" (octal 7 5 0);
                   EvTmuxNew "t4" "/tmp/t4" "" None;
                   EvTmuxSwitchClient "t4"] |}).
Proof. reflexivity. Qed.

Lemma temporary_project_not_remembered_witness :
  (∀ p, filepath_Base temporary_world p ≠ "")
  ∧ returned ((createTemporaryProject temporary_world is_file_exists
               ≫= λ sessionId, ChangeSession temporary_world [] sessionId false)
                (start sample_config)).1 = true
  ∧ created_names
      (events ((createTemporaryProject temporary_world is_file_exists
                ≫= λ sessionId, ChangeSession temporary_world [] sessionId false)
                 (start sample_config)).2) = ["t4"]
  ∧ Config ((createTemporaryProject temporary_world is_file_exists
             ≫= λ sessionId, ChangeSession temporary_world [] sessionId false)
              (start sample_config)).2
    = Config (start sample_config).
Proof.
  split; [exact last_element_nonempty |].
  split; [reflexivity |]. split; [reflexivity |].
  apply (temporary_project_not_remembered temporary_world is_file_exists []
           false (start sample_config) last_element_nonempty).
Defined.

(** ** The editor and the listing *)


Lemma printSessions_rows_witness :
  NoDup (ts_Name <$> sample_listing)
  ∧ NoDup (fs_Name <$> Sessions sample_config)
  ∧ printSessions_allSessions sample_listing (Sessions sample_config) true
    = (sample_listing ++
       [FavouriteSession_TmuxSession sample_notes;
        FavouriteSession_TmuxSession sample_project])%list
  ∧ NoDup (ts_Name <$> printSessions_allSessions sample_listing
                         (Sessions sample_config) true).
Proof.
  pose proof (printSessions_rows sample_listing (Sessions sample_config))
    as (_ & _ & Hnd).
  split; [exact sample_listing_names |]. split; [exact sample_config_names |].
  split; [reflexivity |].
  apply (Hnd sample_listing_names sample_config_names true).
Defined.

(** ** Whole runs *)

Lemma ChangeSession_live_session_witness :
  plain_token "docs"
  ∧ "docs" ≠ ""
  ∧ last (filter (λ s, ts_Name s = "docs") sample_listing) = Some session_C
  ∧ ChangeSession stable_world sample_listing "docs" false (start sample_config)
    = (Returned tt,
       {| Config := Touch "docs" "/home/u/docs" sample_config;
          events := [EvTmuxSwitchClient "docs"] |})
  ∧ created_names
      (events (ChangeSession stable_world sample_listing "docs" false
                 (start sample_config)).2) = [].
Proof.
  assert (Hne : "docs" ≠ "") by discriminate.
  split; [exact plain_docs |]. split; [exact Hne |]. split; [reflexivity |].
  pose proof (ChangeSession_live_session stable_world sample_listing "docs" false
                (start sample_config) session_C plain_docs Hne eq_refl)
    as [Hrun Hnone].
  split; [exact Hrun | exact Hnone].
Defined.

Lemma ChangeSession_favourite_witness :
  plain_token "project"
  ∧ no_live_match sample_listing "project"
  ∧ Sessions (Config (start sample_config))
    = ([sample_notes] ++ sample_project :: [])%list
  ∧ no_favourite_exact [sample_notes] "project"
  ∧ fs_Name sample_project = "project"
  ∧ fs_Name sample_project ≠ ""
  ∧ Forall (λ s, ts_Name s ≠ fs_Name sample_project) sample_listing
  ∧ ChangeSession stable_world sample_listing "project" false (start sample_config)
    = (Returned tt,
       {| Config := {| Sessions := [sample_project; sample_notes]; changed := true |};
          events := [EvTmuxNew "project" "/home/u/project" "make watch"
                       (Some {["GOFLAGS" := "-mod=vendor"]});
                     EvTmuxSwitchClient "project"] |}).
Proof.
  assert (Hlive : no_live_match sample_listing "project") by (repeat constructor).
  assert (Hpre : no_favourite_exact [sample_notes] "project").
  { repeat constructor; [discriminate | apply not_elem_of_nil]. }
  assert (Hname : fs_Name sample_project ≠ "") by discriminate.
  assert (Hfree : Forall (λ s, ts_Name s ≠ fs_Name sample_project) sample_listing)
    by (repeat constructor; discriminate).
  split; [exact plain_project |]. split; [exact Hlive |]. split; [reflexivity |].
  split; [exact Hpre |]. split; [reflexivity |]. split; [exact Hname |].
  split; [exact Hfree |].
  apply (ChangeSession_favourite stable_world sample_listing "project" false
           (start sample_config) [sample_notes] sample_project []
           plain_project Hlive eq_refl Hpre (or_introl eq_refl) Hname Hfree).
Defined.

(** ** Runs without a token *)

(** [pr -a]: the live sessions are listed, then the favourites that are
    not live; no session is created or switched to and nothing is
    written. *)
Example main_prints_listing :
  main listing_world "" false false true (start sample_config)
  = (Returned tt,
     {| Config := sample_config;
        events :=
          [EvTmuxListSessions;
           EvPrintTable ["name"; "path"; "windows"; "activity"; "attchd"]
             [{| row_session :=
                   {| ts_Name := "web"; ts_Attached := true;
                      ts_LastActivity := time_Unix 1700000000;
                      ts_WindowsCount := 2; ts_Path := "/home/u/web" |};
                 row_todo := None |};
              {| row_session :=
                   {| ts_Name := "docs"; ts_Attached := false;
                      ts_LastActivity := time_Unix 1690000000;
                      ts_WindowsCount := 1; ts_Path := "/home/u/docs" |};
                 row_todo := None |};
              {| row_session := FavouriteSession_TmuxSession sample_notes;
                 row_todo := None |};
              {| row_session := FavouriteSession_TmuxSession sample_project;
                 row_todo := None |}]] |}).
Proof. reflexivity. Qed.
